(** * FM-Marketplace: the listing / offer transaction core

    A shallow embedding of the marketplace plugin:
    - [src/types.ts]                       the entities and their enumerations,
    - [src/errors/MarketplaceError.ts]     the error codes,
    - [controllers/MarketplaceController]  the request handlers and their zod schemas,
    - [prisma/client] (CustomPrismaClient) the storage operations,
    - [src/index.ts]                       the configuration, the route table and the
                                           event subscription.

    The database is a record of three finite maps keyed by primary key; a storage
    operation is a function from the database to an outcome (a value or a thrown
    error) and the next database.  JS numbers are modelled by [Z]; a request body
    is a finite map from property names to JSON values. *)

From Stdlib Require Import ZArith.
From stdpp Require Import base option gmap strings list fin_maps.

Local Open Scope string_scope.
Local Open Scope Z_scope.

(** ** src/types.ts *)

Inductive ListingCondition := NEW | LIKE_NEW | GOOD | FAIR.

Module ListingStatus.
Inductive t := DRAFT | PENDING_APPROVAL | AVAILABLE | PENDING_PAYMENT | SOLD | CANCELLED.
End ListingStatus.

Module OfferStatus.
Inductive t := PENDING | ACCEPTED | REJECTED | CANCELLED.
End OfferStatus.

#[global] Instance ListingCondition_eq_dec : EqDecision ListingCondition.
Proof. solve_decision. Defined.
#[global] Instance ListingStatus_eq_dec : EqDecision ListingStatus.t.
Proof. solve_decision. Defined.
#[global] Instance OfferStatus_eq_dec : EqDecision OfferStatus.t.
Proof. solve_decision. Defined.

(** The enumerations are string enums: each member is the string of its name. *)
Definition ListingCondition_value (c : ListingCondition) : string :=
  match c with NEW => "NEW" | LIKE_NEW => "LIKE_NEW" | GOOD => "GOOD" | FAIR => "FAIR" end.

Definition ListingStatus_value (s : ListingStatus.t) : string :=
  match s with
  | ListingStatus.DRAFT => "DRAFT"
  | ListingStatus.PENDING_APPROVAL => "PENDING_APPROVAL"
  | ListingStatus.AVAILABLE => "AVAILABLE"
  | ListingStatus.PENDING_PAYMENT => "PENDING_PAYMENT"
  | ListingStatus.SOLD => "SOLD"
  | ListingStatus.CANCELLED => "CANCELLED"
  end.

Definition OfferStatus_value (s : OfferStatus.t) : string :=
  match s with
  | OfferStatus.PENDING => "PENDING"
  | OfferStatus.ACCEPTED => "ACCEPTED"
  | OfferStatus.REJECTED => "REJECTED"
  | OfferStatus.CANCELLED => "CANCELLED"
  end.

(** [interface MarketplaceListing]: the columns of a row (the optional joined
    members live in [ListingResult] below). *)
Module MarketplaceListing.
Record t := mk {
  id : string;
  title : string;
  description : string;
  price : Z;
  sellerId : string;
  condition : ListingCondition;
  images : list string;
  tags : list string;
  status : ListingStatus.t;
  createdAt : Z;
  updatedAt : Z
}.
End MarketplaceListing.

(** [interface ListingOffer] *)
Module ListingOffer.
Record t := mk {
  id : string;
  listingId : string;
  buyerId : string;
  amount : Z;
  status : OfferStatus.t;
  message : option string;
  createdAt : Z;
  updatedAt : Z
}.
End ListingOffer.

(** [interface ListingMessage] *)
Module ListingMessage.
Record t := mk {
  id : string;
  listingId : string;
  senderId : string;
  content : string;
  createdAt : Z
}.
End ListingMessage.

(** [interface CreateListingInput] *)
Module CreateListingInput.
Record t := mk {
  title : string;
  description : string;
  price : Z;
  condition : ListingCondition;
  images : list string;
  tags : option (list string)
}.
End CreateListingInput.

(** [interface UpdateListingInput], which is also the [Partial<...>] argument of
    [CustomPrismaClient.updateListing]. *)
Module UpdateListingInput.
Record t := mk {
  title : option string;
  description : option string;
  price : option Z;
  condition : option ListingCondition;
  images : option (list string);
  tags : option (list string);
  status : option ListingStatus.t
}.
End UpdateListingInput.

(** [interface CreateOfferInput] *)
Module CreateOfferInput.
Record t := mk { amount : Z; message : option string }.
End CreateOfferInput.

(** [interface UpdateOfferInput], also the [Partial<...>] argument of
    [CustomPrismaClient.updateOffer]. *)
Module UpdateOfferInput.
Record t := mk {
  amount : option Z;
  message : option string;
  status : option OfferStatus.t
}.
End UpdateOfferInput.

(** [interface CreateMessageInput] *)
Module CreateMessageInput.
Record t := mk { content : string }.
End CreateMessageInput.

(** ** src/errors/MarketplaceError.ts *)

Inductive MarketplaceErrorCode :=
  | VALIDATION_ERROR | UNAUTHORIZED | FORBIDDEN | NOT_FOUND
  | LISTING_NOT_FOUND | OFFER_NOT_FOUND | MESSAGE_NOT_FOUND | USER_NOT_FOUND
  | INVALID_STATUS | INVALID_CONDITION | INVALID_PRICE | INVALID_OFFER
  | LISTING_UNAVAILABLE | OFFER_CONFLICT | SELF_OFFER | INTERNAL_ERROR.

#[global] Instance MarketplaceErrorCode_eq_dec : EqDecision MarketplaceErrorCode.
Proof. solve_decision. Defined.

(** The table in the constructor of [MarketplaceError]. *)
Definition statusCode (code : MarketplaceErrorCode) : nat :=
  match code with
  | VALIDATION_ERROR => 400
  | UNAUTHORIZED => 401
  | FORBIDDEN => 403
  | NOT_FOUND | LISTING_NOT_FOUND | OFFER_NOT_FOUND | MESSAGE_NOT_FOUND | USER_NOT_FOUND => 404
  | INVALID_STATUS | INVALID_CONDITION | INVALID_PRICE | INVALID_OFFER => 400
  | LISTING_UNAVAILABLE => 400
  | OFFER_CONFLICT => 409
  | SELF_OFFER => 400
  | INTERNAL_ERROR => 500
  end%nat.

(** What a [throw] carries: a [MarketplaceError] of the plugin, the [ZodError] of a
    failed [parse], a plain [Error] of the storage client, the [TypeError] of
    [Prisma.join] on an empty array, or an error raised by the database itself
    (a violated key constraint). *)
Inductive Thrown :=
  | MarketplaceError (code : MarketplaceErrorCode) (message : string)
  | ZodError
  | Error (message : string)
  | TypeError (message : string)
  | DatabaseError (message : string).

(** ** JSON values and request bodies *)

#[local] Set Warnings "-register-all".
Inductive jval :=
  | JNull
  | JBool (b : bool)
  | JNum (n : Z)
  | JStr (s : string)
  | JArr (xs : list jval)
  | JObj (fields : list (string * jval)).

(** A property read [data.key]: [None] is [undefined]. *)
Definition truthy (v : option jval) : bool :=
  match v with
  | None | Some JNull => false
  | Some (JBool b) => b
  | Some (JNum n) => negb (n =? 0)
  | Some (JStr s) => negb (bool_decide (s = ""))
  | Some (JArr _) | Some (JObj _) => true
  end.

(** [data.status === OfferStatus.ACCEPTED] and the like: strict equality with a
    string constant. *)
Definition strict_eq_string (v : option jval) (s : string) : bool :=
  match v with
  | Some (JStr s') => bool_decide (s' = s)
  | _ => false
  end.

(** ** zod schemas of the controller

    [z.object] strips the keys it does not declare; [parse] throws a [ZodError]
    when a declared key is ill-typed or out of range, or when a required key is
    missing.  [None] stands for that throw. *)
Module Zod.

Definition string_ (min : nat) (v : jval) : option string :=
  match v with
  | JStr s => if decide (min ≤ String.length s)%nat then Some s else None
  | _ => None
  end.

Definition number (min : Z) (v : jval) : option Z :=
  match v with
  | JNum n => if decide (min ≤ n) then Some n else None
  | _ => None
  end.

Definition nativeEnum_ListingCondition (v : jval) : option ListingCondition :=
  match v with
  | JStr s =>
      if decide (s = "NEW") then Some NEW
      else if decide (s = "LIKE_NEW") then Some LIKE_NEW
      else if decide (s = "GOOD") then Some GOOD
      else if decide (s = "FAIR") then Some FAIR
      else None
  | _ => None
  end.

Definition array_string (min : nat) (v : jval) : option (list string) :=
  match v with
  | JArr xs =>
      l ← mapM (string_ 0) xs;
      if decide (min ≤ length l)%nat then Some l else None
  | _ => None
  end.

(** a key declared without [.optional()] *)
Definition required {A} (p : jval → option A) (v : option jval) : option A :=
  v ≫= p.

(** a key declared [.optional()], or any key of a [.partial()] schema *)
Definition optional {A} (p : jval → option A) (v : option jval) : option (option A) :=
  match v with
  | None => Some None
  | Some x => Some <$> p x
  end.

(** [listingSchema.parse] *)
Definition listingSchema (data : gmap string jval) : option CreateListingInput.t :=
  title ← required (string_ 1) (data !! "title");
  description ← required (string_ 1) (data !! "description");
  price ← required (number 0) (data !! "price");
  condition ← required nativeEnum_ListingCondition (data !! "condition");
  images ← required (array_string 1) (data !! "images");
  tags ← optional (array_string 0) (data !! "tags");
  Some (CreateListingInput.mk title description price condition images tags).

(** [listingSchema.partial().parse]; the result is cast to [UpdateListingInput],
    whose [status] member the schema never produces. *)
Definition listingSchema_partial (data : gmap string jval) : option UpdateListingInput.t :=
  title ← optional (string_ 1) (data !! "title");
  description ← optional (string_ 1) (data !! "description");
  price ← optional (number 0) (data !! "price");
  condition ← optional nativeEnum_ListingCondition (data !! "condition");
  images ← optional (array_string 1) (data !! "images");
  tags ← optional (array_string 0) (data !! "tags");
  Some (UpdateListingInput.mk title description price condition images tags None).

(** [offerSchema.parse] *)
Definition offerSchema (data : gmap string jval) : option CreateOfferInput.t :=
  amount ← required (number 0) (data !! "amount");
  message ← optional (string_ 0) (data !! "message");
  Some (CreateOfferInput.mk amount message).

(** [offerSchema.partial().parse]; the schema declares no [status]. *)
Definition offerSchema_partial (data : gmap string jval) : option UpdateOfferInput.t :=
  amount ← optional (number 0) (data !! "amount");
  message ← optional (string_ 0) (data !! "message");
  Some (UpdateOfferInput.mk amount message None).

(** [messageSchema.parse] *)
Definition messageSchema (data : gmap string jval) : option CreateMessageInput.t :=
  content ← required (string_ 1) (data !! "content");
  Some (CreateMessageInput.mk content).

End Zod.

(** ** The request context *)

(** The host's request context: the authenticated user ([c.get('user')]), the path
    parameter ([:id] or [:listingId]), the parsed JSON body, and the query of
    [GET /listings] after the controller's conversion ([minPrice] is the value of
    [minPrice ? Number(minPrice) : undefined], absent when not a number). *)
Module UserContext.
Record t := mk { id : string; role : string; familyId : string }.
End UserContext.

Module ListingQuery.
Record t := mk {
  condition : option string;
  minPrice : option Z;
  maxPrice : option Z;
  status : option string
}.
End ListingQuery.

Module Context.
Record t := mk {
  user : UserContext.t;
  param : string;
  json : gmap string jval;
  query : ListingQuery.t
}.
End Context.

(** ** prisma/client: the database and CustomPrismaClient *)

(** The three tables of [prisma/schema.prisma], each keyed by its [@id] column.
    The [User] table belongs to the host application: the joins to it only add
    display names, and every authenticated caller is one of its rows. *)
Record Database := mkDatabase {
  listings : gmap string MarketplaceListing.t;
  offers : gmap string ListingOffer.t;
  messages : gmap string ListingMessage.t
}.

(** What the database supplies while one request is served: the value of
    [uuid_generate_v4()] for its insert and the reading of [CURRENT_TIMESTAMP]
    (one reading for the statements of the request). *)
Record Env := mkEnv { uuid : string; now : Z }.

(** An asynchronous storage call either returns or throws; the database it leaves
    behind is kept in both cases. *)
Inductive Outcome (A : Type) :=
  | Returned (a : A)
  | Threw (e : Thrown).
Arguments Returned {A} a.
Arguments Threw {A} e.

Definition M (A : Type) : Type := Database → Outcome A * Database.

#[global] Instance M_ret : MRet M := λ A a db, (Returned a, db).
#[global] Instance M_bind : MBind M := λ A B f m db,
  match m db with
  | (Returned a, db') => f a db'
  | (Threw e, db') => (Threw e, db')
  end.

Definition throw {A} (e : Thrown) : M A := λ db, (Threw e, db).
Definition get : M Database := λ db, (Returned db, db).
Definition put (db : Database) : M unit := λ _, (Returned (), db).

(** [interface ListingResult extends MarketplaceListing]: the row with its offers
    and messages joined in. *)
Module ListingResult.
Record t := mk {
  row : MarketplaceListing.t;
  offers : list ListingOffer.t;
  messages : list ListingMessage.t
}.
End ListingResult.

Module Prisma.

Definition offersOf (db : Database) (id : string) : list ListingOffer.t :=
  filter (λ o, ListingOffer.listingId o = id) (map_to_list (offers db)).*2.

Definition messagesOf (db : Database) (id : string) : list ListingMessage.t :=
  filter (λ m, ListingMessage.listingId m = id) (map_to_list (messages db)).*2.

(** [SELECT l.*, ... WHERE l.id = ${id} GROUP BY l.id LIMIT 1]; [null] when no
    row matches. *)
Definition findListingById (id : string) : M (option ListingResult.t) :=
  db ← get;
  mret ((λ l, ListingResult.mk l (offersOf db id) (messagesOf db id)) <$> listings db !! id).

(** a filter is added only when its value is truthy *)
Definition stringFilter (f : option string) (column : string) : bool :=
  match f with
  | Some s => if decide (s = "") then true else bool_decide (column = s)
  | None => true
  end.

Definition boundFilter (f : option Z) (holds : Z → bool) : bool :=
  match f with
  | Some n => if decide (n = 0) then true else holds n
  | None => true
  end.

Definition matches (q : ListingQuery.t) (l : MarketplaceListing.t) : bool :=
  stringFilter (ListingQuery.condition q) (ListingCondition_value (MarketplaceListing.condition l))
  && stringFilter (ListingQuery.status q) (ListingStatus_value (MarketplaceListing.status l))
  && boundFilter (ListingQuery.minPrice q) (λ n, bool_decide (n ≤ MarketplaceListing.price l))
  && boundFilter (ListingQuery.maxPrice q) (λ n, bool_decide (MarketplaceListing.price l ≤ n)).

(** [findListings]: [SELECT ... ${whereClause} GROUP BY l.id] *)
Definition findListings (q : ListingQuery.t) : M (list ListingResult.t) :=
  db ← get;
  mret ((λ l, ListingResult.mk l (offersOf db (MarketplaceListing.id l))
                                 (messagesOf db (MarketplaceListing.id l)))
        <$> filter (λ l, matches q l = true) (map_to_list (listings db)).*2).

(** [INSERT INTO "MarketplaceListing" ... RETURNING *], then the row is read
    back through [findListingById] (the result is cast, so it is the lookup's
    value as it is). *)
Definition createListing (data : CreateListingInput.t) (sellerId : string) (env : Env)
  : M (option ListingResult.t) :=
  db ← get;
  match listings db !! uuid env with
  | Some _ => throw (DatabaseError "Unique constraint failed on MarketplaceListing.id")
  | None =>
      let row :=
        MarketplaceListing.mk (uuid env)
          (CreateListingInput.title data) (CreateListingInput.description data)
          (CreateListingInput.price data) sellerId
          (CreateListingInput.condition data) (CreateListingInput.images data)
          (default [] (CreateListingInput.tags data))
          ListingStatus.PENDING_APPROVAL (now env) (now env) in
      put (mkDatabase (<[uuid env := row]> (listings db)) (offers db) (messages db));;
      findListingById (MarketplaceListing.id row)
  end.

(** The [SET] list built from [Object.entries(data)]: every defined member
    overwrites its column. *)
Definition setListing (data : UpdateListingInput.t) (now : Z) (l : MarketplaceListing.t)
  : MarketplaceListing.t :=
  MarketplaceListing.mk (MarketplaceListing.id l)
    (default (MarketplaceListing.title l) (UpdateListingInput.title data))
    (default (MarketplaceListing.description l) (UpdateListingInput.description data))
    (default (MarketplaceListing.price l) (UpdateListingInput.price data))
    (MarketplaceListing.sellerId l)
    (default (MarketplaceListing.condition l) (UpdateListingInput.condition data))
    (default (MarketplaceListing.images l) (UpdateListingInput.images data))
    (default (MarketplaceListing.tags l) (UpdateListingInput.tags data))
    (default (MarketplaceListing.status l) (UpdateListingInput.status data))
    (MarketplaceListing.createdAt l)
    now.

(** [setClauses.length] *)
Definition listingClauses (data : UpdateListingInput.t) : nat :=
  (length (option_list (UpdateListingInput.title data))
   + length (option_list (UpdateListingInput.description data))
   + length (option_list (UpdateListingInput.price data))
   + length (option_list (UpdateListingInput.condition data))
   + length (option_list (UpdateListingInput.images data))
   + length (option_list (UpdateListingInput.tags data))
   + length (option_list (UpdateListingInput.status data)))%nat.

(** [UPDATE "MarketplaceListing" SET ... WHERE id = ${id}] when there is a
    clause, then [findListingById]; throws when the listing is absent. *)
Definition updateListing (id : string) (data : UpdateListingInput.t) (env : Env)
  : M ListingResult.t :=
  db ← get;
  (if decide (0 < listingClauses data)%nat
   then put (mkDatabase (alter (setListing data (now env)) id (listings db))
                        (offers db) (messages db))
   else mret ());;
  listing ← findListingById id;
  match listing with
  | None => throw (Error "Failed to update listing")
  | Some l => mret l
  end.

(** [DELETE FROM "MarketplaceListing" WHERE id = ${id} RETURNING *].  The
    relations [ListingOffer.listing] and [ListingMessage.listing] of the schema
    are required, so a listing still referenced cannot be deleted. *)
Definition deleteListing (id : string) : M MarketplaceListing.t :=
  db ← get;
  match offersOf db id, messagesOf db id with
  | [], [] =>
      match listings db !! id with
      | None => throw (Error "Listing not found")
      | Some l =>
          put (mkDatabase (delete id (listings db)) (offers db) (messages db));;
          mret l
      end
  | _, _ => throw (DatabaseError "Foreign key constraint failed on listingId")
  end.

(** [INSERT INTO "ListingOffer" ... RETURNING *] with status [PENDING]. *)
Definition createOffer (data : CreateOfferInput.t) (listingId buyerId : string) (env : Env)
  : M ListingOffer.t :=
  db ← get;
  match offers db !! uuid env, listings db !! listingId with
  | Some _, _ => throw (DatabaseError "Unique constraint failed on ListingOffer.id")
  | None, None => throw (DatabaseError "Foreign key constraint failed on listingId")
  | None, Some _ =>
      let row :=
        ListingOffer.mk (uuid env) listingId buyerId (CreateOfferInput.amount data)
          OfferStatus.PENDING
          (match CreateOfferInput.message data with
           | Some m => if decide (m = "") then None else Some m
           | None => None
           end)
          (now env) (now env) in
      put (mkDatabase (listings db) (<[uuid env := row]> (offers db)) (messages db));;
      mret row
  end.

Definition setOffer (data : UpdateOfferInput.t) (now : Z) (o : ListingOffer.t)
  : ListingOffer.t :=
  ListingOffer.mk (ListingOffer.id o) (ListingOffer.listingId o) (ListingOffer.buyerId o)
    (default (ListingOffer.amount o) (UpdateOfferInput.amount data))
    (default (ListingOffer.status o) (UpdateOfferInput.status data))
    (match UpdateOfferInput.message data with
     | Some m => Some m
     | None => ListingOffer.message o
     end)
    (ListingOffer.createdAt o)
    now.

Definition offerClauses (data : UpdateOfferInput.t) : nat :=
  (length (option_list (UpdateOfferInput.amount data))
   + length (option_list (UpdateOfferInput.status data))
   + length (option_list (UpdateOfferInput.message data)))%nat.

(** [UPDATE "ListingOffer" SET ${Prisma.join(setClauses, ', ')}, ... WHERE id =
    ${id} RETURNING *].  There is no guard on an empty clause list here:
    [Prisma.join] throws a [TypeError] on an empty array, before any query is
    sent. *)
Definition updateOffer (id : string) (data : UpdateOfferInput.t) (env : Env)
  : M ListingOffer.t :=
  if decide (offerClauses data = 0)%nat
  then throw (TypeError "Expected `join([])` to be called with an array of multiple elements, but got an empty array")
  else
    db ← get;
    match offers db !! id with
    | None => throw (Error "Failed to update offer")
    | Some o =>
        let row := setOffer data (now env) o in
        put (mkDatabase (listings db) (<[id := row]> (offers db)) (messages db));;
        mret row
    end.

(** [INSERT INTO "ListingMessage" ... RETURNING *] *)
Definition createMessage (data : CreateMessageInput.t) (listingId senderId : string) (env : Env)
  : M ListingMessage.t :=
  db ← get;
  match messages db !! uuid env, listings db !! listingId with
  | Some _, _ => throw (DatabaseError "Unique constraint failed on ListingMessage.id")
  | None, None => throw (DatabaseError "Foreign key constraint failed on listingId")
  | None, Some _ =>
      let row :=
        ListingMessage.mk (uuid env) listingId senderId (CreateMessageInput.content data)
          (now env) in
      put (mkDatabase (listings db) (offers db) (<[uuid env := row]> (messages db)));;
      mret row
  end.

End Prisma.


(** ** utils/response *)

Inductive Payload :=
  | PListings (ls : list ListingResult.t)
  | PListing (l : option ListingResult.t)
  | PText (message : string)
  | POffer (o : ListingOffer.t)
  | PMessage (m : ListingMessage.t).

(** Modelled from the spec: [utils/response] ([successResponse], [errorResponse])
    is not among the sources.  A response is the tagged result of section 6:
    success with the returned payload and HTTP status, or failure with the error
    that was caught.  The route table of [index.ts] adds its own JSON replies and
    the two ways a request can end outside a controller's [try]: no route
    registered, or an error that escapes the handler. *)
Inductive Response :=
  | successResponse (data : Payload) (status : nat)
  | errorResponse (error : Thrown)
  | jsonForbidden (message : string)
  | jsonSuccess
  | noRoute
  | uncaught (error : Thrown).

(** ** controllers/MarketplaceController *)
Module MarketplaceController.

(** [try { ... } catch (error) { return errorResponse(c, error) }] *)
Definition try_catch (body : M Response) : Database → Response * Database :=
  λ db,
    match body db with
    | (Returned r, db') => (r, db')
    | (Threw e, db') => (errorResponse e, db')
    end.

(** [schema.parse(data)] inside an [async] method *)
Definition parse {A} (r : option A) : M A :=
  match r with
  | Some a => mret a
  | None => throw ZodError
  end.

Definition getListings (c : Context.t) : Database → Response * Database :=
  try_catch (
    listings ← Prisma.findListings (Context.query c);
    mret (successResponse (PListings listings) 200)).

Definition getListingById (c : Context.t) : Database → Response * Database :=
  try_catch (
    let id := Context.param c in
    listing ← Prisma.findListingById id;
    match listing with
    | None => throw (MarketplaceError LISTING_NOT_FOUND "Listing not found")
    | Some listing => mret (successResponse (PListing (Some listing)) 200)
    end).

Definition createListing (c : Context.t) (env : Env) : Database → Response * Database :=
  try_catch (
    let user := Context.user c in
    let data := Context.json c in
    validatedData ← parse (Zod.listingSchema data);
    listing ← Prisma.createListing validatedData (UserContext.id user) env;
    mret (successResponse (PListing listing) 201)).

Definition updateListing (c : Context.t) (env : Env) : Database → Response * Database :=
  try_catch (
    let user := Context.user c in
    let id := Context.param c in
    let data := Context.json c in
    existingListing ← Prisma.findListingById id;
    match existingListing with
    | None => throw (MarketplaceError LISTING_NOT_FOUND "Listing not found")
    | Some existingListing =>
        if decide (MarketplaceListing.sellerId (ListingResult.row existingListing)
                   ≠ UserContext.id user)
        then throw (MarketplaceError FORBIDDEN
                      "You do not have permission to update this listing")
        else
          validatedData ← parse (Zod.listingSchema_partial data);
          updatedListing ← Prisma.updateListing id validatedData env;
          mret (successResponse (PListing (Some updatedListing)) 200)
    end).

Definition deleteListing (c : Context.t) : Database → Response * Database :=
  try_catch (
    let user := Context.user c in
    let id := Context.param c in
    listing ← Prisma.findListingById id;
    match listing with
    | None => throw (MarketplaceError LISTING_NOT_FOUND "Listing not found")
    | Some listing =>
        if decide (MarketplaceListing.sellerId (ListingResult.row listing)
                   ≠ UserContext.id user)
        then throw (MarketplaceError FORBIDDEN
                      "You do not have permission to delete this listing")
        else
          Prisma.deleteListing id;;
          mret (successResponse (PText "Listing deleted successfully") 200)
    end).

Definition createOffer (c : Context.t) (env : Env) : Database → Response * Database :=
  try_catch (
    let user := Context.user c in
    let listingId := Context.param c in
    let data := Context.json c in
    listing ← Prisma.findListingById listingId;
    match listing with
    | None => throw (MarketplaceError LISTING_NOT_FOUND "Listing not found")
    | Some listing =>
        if decide (MarketplaceListing.status (ListingResult.row listing)
                   ≠ ListingStatus.AVAILABLE)
        then throw (MarketplaceError LISTING_UNAVAILABLE
                      "Listing is not available for offers")
        else if decide (MarketplaceListing.sellerId (ListingResult.row listing)
                        = UserContext.id user)
        then throw (MarketplaceError SELF_OFFER
                      "You cannot make an offer on your own listing")
        else
          validatedData ← parse (Zod.offerSchema data);
          offer ← Prisma.createOffer validatedData listingId (UserContext.id user) env;
          mret (successResponse (POffer offer) 201)
    end).

(** The listing is looked up with the offer's id ([findListingById(id)]), and the
    body goes through [offerSchema.partial()], which has no [status] key. *)
Definition updateOffer (c : Context.t) (env : Env) : Database → Response * Database :=
  try_catch (
    let user := Context.user c in
    let id := Context.param c in
    let data := Context.json c in
    listing ← Prisma.findListingById id;
    match listing with
    | None => throw (MarketplaceError LISTING_NOT_FOUND "Listing not found")
    | Some listing =>
        if truthy (data !! "status")
           && bool_decide (MarketplaceListing.sellerId (ListingResult.row listing)
                           ≠ UserContext.id user)
        then throw (MarketplaceError FORBIDDEN
                      "Only the seller can accept or reject offers")
        else if (truthy (data !! "amount") || truthy (data !! "message"))
                && bool_decide (MarketplaceListing.sellerId (ListingResult.row listing)
                                = UserContext.id user)
        then throw (MarketplaceError FORBIDDEN
                      "Only the buyer can update offer details")
        else
          validatedData ← parse (Zod.offerSchema_partial data);
          updatedOffer ← Prisma.updateOffer id validatedData env;
          (if strict_eq_string (data !! "status") (OfferStatus_value OfferStatus.ACCEPTED)
           then
             Prisma.updateListing (MarketplaceListing.id (ListingResult.row listing))
               (UpdateListingInput.mk None None None None None None
                  (Some ListingStatus.PENDING_PAYMENT)) env;;
             mret ()
           else mret ());;
          mret (successResponse (POffer updatedOffer) 200)
    end).

Definition createMessage (c : Context.t) (env : Env) : Database → Response * Database :=
  try_catch (
    let user := Context.user c in
    let listingId := Context.param c in
    let data := Context.json c in
    listing ← Prisma.findListingById listingId;
    match listing with
    | None => throw (MarketplaceError LISTING_NOT_FOUND "Listing not found")
    | Some listing =>
        validatedData ← parse (Zod.messageSchema data);
        message ← Prisma.createMessage validatedData listingId (UserContext.id user) env;
        mret (successResponse (PMessage message) 201)
    end).

(** [try { await ... } catch (error) { console.error(...); throw error }]: the
    error is logged and thrown again. *)
Definition handleListingApproved (listingId : string) (env : Env) : M unit :=
  Prisma.updateListing listingId
    (UpdateListingInput.mk None None None None None None (Some ListingStatus.AVAILABLE)) env;;
  mret ().

Definition handlePaymentCompleted (listingId : string) (env : Env) : M unit :=
  Prisma.updateListing listingId
    (UpdateListingInput.mk None None None None None None (Some ListingStatus.SOLD)) env;;
  mret ().

End MarketplaceController.

(** ** src/index.ts: configuration, routes, events *)

(** [configSchema] / [MarketplaceConfigSchema] *)
Module MarketplaceConfig.
Record Features := mkFeatures {
  autoApproval : bool;
  messaging : bool;
  offers : bool
}.
Record Roles := mkRoles {
  canCreateListings : list string;
  canDeleteListings : list string;
  canApproveListings : list string;
  canMakeOffers : list string
}.
Record Limits := mkLimits {
  maxListingsPerUser : Z;
  maxImagesPerListing : Z;
  maxOffersPerListing : Z;
  maxMessagesPerListing : Z
}.
Record t := mk { features : Features; roles : Roles; limits : Limits }.

(** the [.default(...)] values of the schema *)
Definition defaults : t :=
  mk (mkFeatures false true true)
     (mkRoles ["PARENT"; "CHILD"] ["PARENT"] ["PARENT"] ["PARENT"; "CHILD"])
     (mkLimits 50 10 20 100).

(** every limit is declared [z.number().min(1)] *)
Definition valid (c : t) : Prop :=
  1 ≤ maxListingsPerUser (limits c) ∧ 1 ≤ maxImagesPerListing (limits c)
  ∧ 1 ≤ maxOffersPerListing (limits c) ∧ 1 ≤ maxMessagesPerListing (limits c).
End MarketplaceConfig.

Module MarketplacePlugin.

Inductive Route :=
  | GET_listings            (* GET    /api/marketplace/listings *)
  | POST_listings           (* POST   /api/marketplace/listings *)
  | GET_listings_id         (* GET    /api/marketplace/listings/:id *)
  | PUT_listings_id         (* PUT    /api/marketplace/listings/:id *)
  | DELETE_listings_id      (* DELETE /api/marketplace/listings/:id *)
  | POST_listings_offers    (* POST   /api/marketplace/listings/:listingId/offers *)
  | PUT_offers_id           (* PUT    /api/marketplace/offers/:id *)
  | POST_listings_messages  (* POST   /api/marketplace/listings/:listingId/messages *)
  | POST_listings_approve.  (* POST   /api/marketplace/listings/:id/approve *)

#[global] Instance Route_eq_dec : EqDecision Route.
Proof. solve_decision. Defined.

(** [getRoutes]: the approval route is pushed only when auto-approval is
    disabled. *)
Definition getRoutes (config : MarketplaceConfig.t) : list Route :=
  [GET_listings; POST_listings; GET_listings_id; PUT_listings_id; DELETE_listings_id;
   POST_listings_offers; PUT_offers_id; POST_listings_messages]
  ++ (if negb (MarketplaceConfig.autoApproval (MarketplaceConfig.features config))
      then [POST_listings_approve] else []).

(** [config.roles.X.includes(user.role)] *)
Definition includes (roles : list string) (role : string) : bool :=
  bool_decide (role ∈ roles).

(** the [handler] member of each route definition *)
Definition handler (config : MarketplaceConfig.t) (r : Route) (c : Context.t) (env : Env)
  : Database → Response * Database :=
  let role := UserContext.role (Context.user c) in
  let roles := MarketplaceConfig.roles config in
  match r with
  | GET_listings => MarketplaceController.getListings c
  | POST_listings =>
      if negb (includes (MarketplaceConfig.canCreateListings roles) role)
      then λ db, (jsonForbidden "User not authorized to create listings", db)
      else MarketplaceController.createListing c env
  | GET_listings_id => MarketplaceController.getListingById c
  | PUT_listings_id => MarketplaceController.updateListing c env
  | DELETE_listings_id =>
      if negb (includes (MarketplaceConfig.canDeleteListings roles) role)
      then λ db, (jsonForbidden "User not authorized to delete listings", db)
      else MarketplaceController.deleteListing c
  | POST_listings_offers =>
      if negb (includes (MarketplaceConfig.canMakeOffers roles) role)
      then λ db, (jsonForbidden "User not authorized to make offers", db)
      else MarketplaceController.createOffer c env
  | PUT_offers_id => MarketplaceController.updateOffer c env
  | POST_listings_messages => MarketplaceController.createMessage c env
  | POST_listings_approve =>
      if negb (includes (MarketplaceConfig.canApproveListings roles) role)
      then λ db, (jsonForbidden "User not authorized to approve listings", db)
      else λ db,
        match MarketplaceController.handleListingApproved (Context.param c) env db with
        | (Returned _, db') => (jsonSuccess, db')
        | (Threw e, db') => (uncaught e, db')
        end
  end.

(** A request reaches a handler only through a registered route. *)
Definition request (config : MarketplaceConfig.t) (r : Route) (c : Context.t) (env : Env)
  : Database → Response * Database :=
  if decide (r ∈ getRoutes config) then handler config r c env
  else λ db, (noRoute, db).

(** [handleEvent]: the only subscription is [payment.completed]. *)
Definition handleEvent (type : string) (listingId : string) (env : Env) : M unit :=
  if decide (type = "payment.completed")
  then MarketplaceController.handlePaymentCompleted listingId env
  else mret ().

(** Everything the plugin reacts to. *)
Inductive Input :=
  | Http (r : Route) (c : Context.t)
  | Event (type : string) (listingId : string).

Definition step (config : MarketplaceConfig.t) (i : Input) (env : Env) (db : Database)
  : Database :=
  match i with
  | Http r c => (request config r c env db).2
  | Event type listingId => (handleEvent type listingId env db).2
  end.

(** The databases a sequence of inputs goes through, the initial one first. *)
Fixpoint run (config : MarketplaceConfig.t) (trace : list (Input * Env)) (db : Database)
  : list Database :=
  match trace with
  | [] => [db]
  | (i, env) :: trace => db :: run config trace (step config i env db)
  end.

End MarketplacePlugin.

(** ** Vocabulary of the specification, for stating the properties below *)

(** the status of the listing stored under [id], if any *)
Definition listingStatus (db : Database) (id : string) : option ListingStatus.t :=
  MarketplaceListing.status <$> listings db !! id.

Definition offerStatus (db : Database) (id : string) : option OfferStatus.t :=
  ListingOffer.status <$> offers db !! id.

Definition listingSeller (db : Database) (id : string) : option string :=
  MarketplaceListing.sellerId <$> listings db !! id.

(** The number of non-terminal offers of a listing, in the specification's words:
    ACCEPTED, REJECTED and CANCELLED are terminal, so the offers counted are the
    PENDING ones. *)
Definition nonTerminalOffers (db : Database) (listingId : string) : nat :=
  size (filter (λ kv : string * ListingOffer.t,
                  ListingOffer.listingId kv.2 = listingId
                  ∧ ListingOffer.status kv.2 = OfferStatus.PENDING) (offers db)).

(** [preserves R m]: whatever [m] does to the database, the databases before and
    after are related by [R]. *)
Inductive preserves (R : Database → Database → Prop) {A} (m : M A) : Prop :=
  | preserves_intro : (∀ db, R db (m db).2) → preserves R m.

(** every listing has the status it had *)
Definition same_statuses (db db' : Database) : Prop :=
  ∀ j, listingStatus db' j = listingStatus db j.

(** every offer has the status it had *)
Definition same_offer_statuses (db db' : Database) : Prop :=
  ∀ j, offerStatus db' j = offerStatus db j.

(** every stored listing is still stored, with the seller it had *)
Definition sellers_kept (db db' : Database) : Prop :=
  ∀ j s, listingSeller db j = Some s → listingSeller db' j = Some s.

Definition isSuccess (r : Response) : bool :=
  match r with
  | successResponse _ _ | jsonSuccess => true
  | _ => false
  end.

(** ** Sample data: one seller, two buyers, one listing *)
Module Sample.

Definition seller : UserContext.t := UserContext.mk "S" "PARENT" "family".
Definition buyer1 : UserContext.t := UserContext.mk "B1" "CHILD" "family".
Definition buyer2 : UserContext.t := UserContext.mk "B2" "CHILD" "family".

Definition noQuery : ListingQuery.t := ListingQuery.mk None None None None.

Definition bike (status : ListingStatus.t) : MarketplaceListing.t :=
  MarketplaceListing.mk "L1" "Bike" "A red bike" 150 "S" GOOD ["bike.png"] [] status 1 1.

Definition offer1 : ListingOffer.t :=
  ListingOffer.mk "O1" "L1" "B1" 100 OfferStatus.PENDING None 2 2.

(** the listing alone, in a given status *)
Definition store (status : ListingStatus.t) : Database :=
  mkDatabase {[ "L1" := bike status ]} ∅ ∅.

(** the listing with one pending offer *)
Definition storeWithOffer (status : ListingStatus.t) : Database :=
  mkDatabase {[ "L1" := bike status ]} {[ "O1" := offer1 ]} ∅.

(** a listing and one of its offers stored under the same key ["K"] in their
    two tables *)
Definition storeSharedKey : Database :=
  mkDatabase
    {[ "K" := MarketplaceListing.mk "K" "Bike" "A red bike" 150 "S" GOOD ["bike.png"] []
                ListingStatus.AVAILABLE 1 1 ]}
    {[ "K" := ListingOffer.mk "K" "K" "B1" 100 OfferStatus.PENDING None 2 2 ]}
    ∅.

Definition offerBody (amount : Z) : gmap string jval := {[ "amount" := JNum amount ]}.

Definition listingBody : gmap string jval :=
  {[ "title" := JStr "Bike"; "description" := JStr "A red bike"; "price" := JNum 150;
     "condition" := JStr "GOOD"; "images" := JArr [JStr "bike.png"] ]}.

Definition acceptBody : gmap string jval := {[ "status" := JStr "ACCEPTED" ]}.

(** an accept whose [amount] is the falsy [0] *)
Definition acceptBodyZero : gmap string jval :=
  {[ "status" := JStr "ACCEPTED"; "amount" := JNum 0 ]}.

Definition env1 : Env := mkEnv "O2" 10.
Definition env2 : Env := mkEnv "O3" 20.

(** the defaults with [maxOffersPerListing] lowered to its minimum *)
Definition configOneOffer : MarketplaceConfig.t :=
  MarketplaceConfig.mk
    (MarketplaceConfig.features MarketplaceConfig.defaults)
    (MarketplaceConfig.roles MarketplaceConfig.defaults)
    (MarketplaceConfig.mkLimits 50 10 1 100).

(** the defaults with auto-approval switched on *)
Definition configAutoApproval : MarketplaceConfig.t :=
  MarketplaceConfig.mk
    (MarketplaceConfig.mkFeatures true true true)
    (MarketplaceConfig.roles MarketplaceConfig.defaults)
    (MarketplaceConfig.limits MarketplaceConfig.defaults).

End Sample.

(** ** src/core/events/EventBus.ts: class EventBus

    [listeners] is a map from event names to arrays of handlers.  A handler is
    identified by its reference ([indexOf] compares references), so handlers are
    taken from a type with decidable equality; what a handler does when it is
    called is given by [call], which acts on the subscribers' state and may
    throw.  Handlers are assumed not to reach back into the bus while an [emit]
    is delivering. *)
Module EventBus.
Section Bus.
Context {Handler Data State Failure : Type} `{!EqDecision Handler}.
Context (call : Handler → Data → State → Failure + State).

(** [this.listeners.get(event)] with an absent entry read as no listeners *)
Definition listenersOf (bus : gmap string (list Handler)) (event : string) : list Handler :=
  default [] (bus !! event).

Definition subscribe (event : string) (handler : Handler) (bus : gmap string (list Handler))
  : gmap string (list Handler) :=
  let bus := match bus !! event with
             | None => <[event := []]> bus
             | Some _ => bus
             end in
  alter (λ listeners : list Handler, (listeners ++ [handler])%list) event bus.

(** [listeners.forEach(listener => listener(data))]: in order, stopping at the
    first handler that throws *)
Fixpoint forEach (listeners : list Handler) (data : Data) (s : State) : Failure + State :=
  match listeners with
  | [] => inr s
  | listener :: listeners =>
      match call listener data s with
      | inl e => inl e
      | inr s' => forEach listeners data s'
      end
  end.

Definition emit (event : string) (data : Data) (bus : gmap string (list Handler)) (s : State)
  : Failure + State :=
  match bus !! event with
  | Some listeners => forEach listeners data s
  | None => inr s
  end.

(** [index = listeners.indexOf(handler); if (index !== -1) listeners.splice(index, 1)] *)
Fixpoint spliceFirst (handler : Handler) (listeners : list Handler) : list Handler :=
  match listeners with
  | [] => []
  | h :: listeners =>
      if decide (h = handler) then listeners else h :: spliceFirst handler listeners
  end.

Definition unsubscribe (event : string) (handler : Handler)
    (bus : gmap string (list Handler)) : gmap string (list Handler) :=
  alter (spliceFirst handler) event bus.

(** [clear(event?)]: [if (event)] is false for a missing argument and for the
    empty string *)
Definition clear (event : option string) (bus : gmap string (list Handler))
  : gmap string (list Handler) :=
  match event with
  | Some e => if decide (e = "") then ∅ else delete e bus
  | None => ∅
  end.

(** [this.listeners.get(event)?.length || 0] *)
Definition listenerCount (event : string) (bus : gmap string (list Handler)) : nat :=
  match bus !! event with
  | Some listeners => length listeners
  | None => 0
  end.

End Bus.
End EventBus.

(** ** The type guards next to [MarketplaceConfigSchema]

    That module declares status enumerations of its own:
    [ListingStatus = DRAFT | AVAILABLE | PENDING_APPROVAL | SOLD | EXPIRED] and
    [OfferStatus = PENDING | ACCEPTED | REJECTED | COUNTERED]. *)
Module TypeGuards.

(** [Object.values(ListingStatus)] *)
Definition ListingStatus_values : list string :=
  ["DRAFT"; "AVAILABLE"; "PENDING_APPROVAL"; "SOLD"; "EXPIRED"].

(** [Object.values(OfferStatus)] *)
Definition OfferStatus_values : list string :=
  ["PENDING"; "ACCEPTED"; "REJECTED"; "COUNTERED"].

(** [typeof status === 'string' && Object.values(ListingStatus).includes(status)] *)
Definition isValidListingStatus (status : option jval) : bool :=
  match status with
  | Some (JStr s) => bool_decide (s ∈ ListingStatus_values)
  | _ => false
  end.

Definition isValidOfferStatus (status : option jval) : bool :=
  match status with
  | Some (JStr s) => bool_decide (s ∈ OfferStatus_values)
  | _ => false
  end.

End TypeGuards.

(** ** CustomPrismaClient.countListings / countOffers and the plugin's metrics *)

(** the [where] argument of [countListings] *)
Module CountListingsWhere.
Record t := mk {
  sellerId : option string;
  condition : option ListingCondition;
  status : option ListingStatus.t;
  minPrice : option Z;
  maxPrice : option Z
}.
End CountListingsWhere.

(** the [where] argument of [countOffers] *)
Module CountOffersWhere.
Record t := mk {
  listingId : option string;
  buyerId : option string;
  status : option OfferStatus.t;
  minAmount : option Z;
  maxAmount : option Z
}.
End CountOffersWhere.

Module PrismaCount.

(** [if (where?.x)]: a condition is pushed only for a truthy member; a member of
    an enumeration is a non-empty string and always truthy *)
Definition whenString (f : option string) (holds : string → bool) : bool :=
  match f with
  | Some s => if decide (s = "") then true else holds s
  | None => true
  end.

Definition whenNumber (f : option Z) (holds : Z → bool) : bool :=
  match f with
  | Some n => if decide (n = 0) then true else holds n
  | None => true
  end.

Definition whenEnum {A} (f : option A) (holds : A → bool) : bool :=
  match f with
  | Some a => holds a
  | None => true
  end.

Definition listingConditions (w : option CountListingsWhere.t) (l : MarketplaceListing.t)
  : bool :=
  match w with
  | None => true
  | Some w =>
      whenString (CountListingsWhere.sellerId w)
        (λ s, bool_decide (MarketplaceListing.sellerId l = s))
      && whenEnum (CountListingsWhere.condition w)
           (λ c, bool_decide (MarketplaceListing.condition l = c))
      && whenEnum (CountListingsWhere.status w)
           (λ s, bool_decide (MarketplaceListing.status l = s))
      && whenNumber (CountListingsWhere.minPrice w)
           (λ n, bool_decide (n ≤ MarketplaceListing.price l))
      && whenNumber (CountListingsWhere.maxPrice w)
           (λ n, bool_decide (MarketplaceListing.price l ≤ n))
  end.

Definition offerConditions (w : option CountOffersWhere.t) (o : ListingOffer.t) : bool :=
  match w with
  | None => true
  | Some w =>
      whenString (CountOffersWhere.listingId w)
        (λ s, bool_decide (ListingOffer.listingId o = s))
      && whenString (CountOffersWhere.buyerId w)
           (λ s, bool_decide (ListingOffer.buyerId o = s))
      && whenEnum (CountOffersWhere.status w)
           (λ s, bool_decide (ListingOffer.status o = s))
      && whenNumber (CountOffersWhere.minAmount w)
           (λ n, bool_decide (n ≤ ListingOffer.amount o))
      && whenNumber (CountOffersWhere.maxAmount w)
           (λ n, bool_decide (ListingOffer.amount o ≤ n))
  end.

(** [SELECT COUNT( * ) as count FROM "MarketplaceListing" ${whereClause}] *)
Definition countListings (w : option CountListingsWhere.t) : M nat :=
  db ← get;
  mret (length (filter (λ l, listingConditions w l = true) (map_to_list (listings db)).*2)).

(** [SELECT COUNT( * ) as count FROM "ListingOffer" ${whereClause}] *)
Definition countOffers (w : option CountOffersWhere.t) : M nat :=
  db ← get;
  mret (length (filter (λ o, offerConditions w o = true) (map_to_list (offers db)).*2)).

End PrismaCount.

(** [MarketplacePlugin.metrics] and [updateMetrics] *)
Module Metrics.
Record t := mk {
  totalListings : nat;
  activeListings : nat;
  totalOffers : nat;
  acceptedOffers : nat
}.

(** the four counts of [Promise.all], gathered into the new metrics *)
Definition updateMetrics : M t :=
  totalListings ← PrismaCount.countListings None;
  activeListings ← PrismaCount.countListings
    (Some (CountListingsWhere.mk None None (Some ListingStatus.AVAILABLE) None None));
  totalOffers ← PrismaCount.countOffers None;
  acceptedOffers ← PrismaCount.countOffers
    (Some (CountOffersWhere.mk None None (Some OfferStatus.ACCEPTED) None None));
  mret (mk totalListings activeListings totalOffers acceptedOffers).
End Metrics.

(** ** Invariants and frame relations of the database *)

(** every row is stored under its own [id] *)
Definition wf_db (db : Database) : Prop :=
  map_Forall (λ k l, MarketplaceListing.id l = k) (listings db)
  ∧ map_Forall (λ k o, ListingOffer.id o = k) (offers db)
  ∧ map_Forall (λ k m, ListingMessage.id m = k) (messages db).

(** every offer and every message belongs to a stored listing *)
Definition refs_ok (db : Database) : Prop :=
  map_Forall (λ _ o, is_Some (listings db !! ListingOffer.listingId o)) (offers db)
  ∧ map_Forall (λ _ m, is_Some (listings db !! ListingMessage.listingId m)) (messages db).

(** what the schemas let through: non-empty texts, non-negative amounts, at
    least one image *)
Definition valid_fields (db : Database) : Prop :=
  map_Forall (λ _ l, (1 ≤ String.length (MarketplaceListing.title l))%nat
                     ∧ (1 ≤ String.length (MarketplaceListing.description l))%nat
                     ∧ 0 ≤ MarketplaceListing.price l
                     ∧ (1 ≤ length (MarketplaceListing.images l))%nat) (listings db)
  ∧ map_Forall (λ _ o, 0 ≤ ListingOffer.amount o) (offers db)
  ∧ map_Forall (λ _ m, (1 ≤ String.length (ListingMessage.content m))%nat) (messages db).

Definition all_offers_pending (db : Database) : Prop :=
  map_Forall (λ _ o, ListingOffer.status o = OfferStatus.PENDING) (offers db).

Definition no_draft_or_cancelled (db : Database) : Prop :=
  map_Forall (λ _ l, MarketplaceListing.status l ≠ ListingStatus.DRAFT
                     ∧ MarketplaceListing.status l ≠ ListingStatus.CANCELLED) (listings db).

(** [keeps I]: if [I] held before, it holds after *)
Definition keeps (I : Database → Prop) : relation Database := λ db db', I db → I db'.

(** every stored offer is still stored, on the same listing, by the same buyer,
    in the same status *)
Definition offers_kept (db db' : Database) : Prop :=
  ∀ k o, offers db !! k = Some o →
    ∃ o', offers db' !! k = Some o'
          ∧ ListingOffer.listingId o' = ListingOffer.listingId o
          ∧ ListingOffer.buyerId o' = ListingOffer.buyerId o
          ∧ ListingOffer.status o' = ListingOffer.status o
          ∧ ListingOffer.createdAt o' = ListingOffer.createdAt o.

(** every stored message is still stored, unchanged *)
Definition messages_kept (db db' : Database) : Prop := messages db ⊆ messages db'.

(** the statuses the handlers write with [updateListing] *)
Definition writtenStatus (st : ListingStatus.t) : bool :=
  match st with
  | ListingStatus.AVAILABLE | ListingStatus.PENDING_PAYMENT | ListingStatus.SOLD => true
  | _ => false
  end.

(** [{ status: st }] *)
Definition statusOnly (st : ListingStatus.t) : UpdateListingInput.t :=
  UpdateListingInput.mk None None None None None None (Some st).

(** the rows the three [INSERT] statements write *)
Definition newListing (data : CreateListingInput.t) (sellerId : string) (env : Env)
  : MarketplaceListing.t :=
  MarketplaceListing.mk (uuid env)
    (CreateListingInput.title data) (CreateListingInput.description data)
    (CreateListingInput.price data) sellerId
    (CreateListingInput.condition data) (CreateListingInput.images data)
    (default [] (CreateListingInput.tags data))
    ListingStatus.PENDING_APPROVAL (now env) (now env).

Definition newOffer (data : CreateOfferInput.t) (listingId buyerId : string) (env : Env)
  : ListingOffer.t :=
  ListingOffer.mk (uuid env) listingId buyerId (CreateOfferInput.amount data)
    OfferStatus.PENDING
    (match CreateOfferInput.message data with
     | Some m => if decide (m = "") then None else Some m
     | None => None
     end)
    (now env) (now env).

Definition newMessage (data : CreateMessageInput.t) (listingId senderId : string) (env : Env)
  : ListingMessage.t :=
  ListingMessage.mk (uuid env) listingId senderId (CreateMessageInput.content data) (now env).

(** the six keys [listingSchema] declares *)
Definition listingKeys : list string :=
  ["title"; "description"; "price"; "condition"; "images"; "tags"].

(** ** A longer scenario: a database with a listing, an offer and a message on
    it, and a sequence of inputs that goes through every route *)
Module Scenario.

Definition message1 : ListingMessage.t :=
  ListingMessage.mk "M1" "L1" "B2" "Is it still for sale?" 3.

Definition db : Database :=
  mkDatabase {[ "L1" := Sample.bike ListingStatus.AVAILABLE ]}
             {[ "O1" := Sample.offer1 ]}
             {[ "M1" := message1 ]}.

(** a caller whose role appears in no role list *)
Definition guest : UserContext.t := UserContext.mk "G" "GUEST" "elsewhere".

Definition context (user : UserContext.t) (param : string) (body : gmap string jval)
  : Context.t :=
  Context.mk user param body Sample.noQuery.

Definition messageBody : gmap string jval := {[ "content" := JStr "Hello" ]}.

Definition trace : list (MarketplacePlugin.Input * Env) :=
  [ (MarketplacePlugin.Http MarketplacePlugin.POST_listings
       (context Sample.seller "" Sample.listingBody), mkEnv "L2" 10);
    (MarketplacePlugin.Http MarketplacePlugin.POST_listings_approve
       (context Sample.seller "L2" ∅), mkEnv "" 11);
    (MarketplacePlugin.Http MarketplacePlugin.POST_listings_offers
       (context Sample.buyer1 "L2" (Sample.offerBody 80)), mkEnv "O2" 12);
    (MarketplacePlugin.Http MarketplacePlugin.POST_listings_messages
       (context Sample.buyer2 "L2" messageBody), mkEnv "M2" 13);
    (MarketplacePlugin.Http MarketplacePlugin.PUT_listings_id
       (context Sample.seller "L2" {[ "price" := JNum 90 ]}), mkEnv "" 14);
    (MarketplacePlugin.Http MarketplacePlugin.PUT_offers_id
       (context Sample.seller "O2" Sample.acceptBody), mkEnv "" 15);
    (MarketplacePlugin.Http MarketplacePlugin.GET_listings
       (context guest "" ∅), mkEnv "" 16);
    (MarketplacePlugin.Http MarketplacePlugin.GET_listings_id
       (context guest "L2" ∅), mkEnv "" 17);
    (MarketplacePlugin.Event "payment.completed" "L2", mkEnv "" 18);
    (MarketplacePlugin.Http MarketplacePlugin.DELETE_listings_id
       (context Sample.seller "L1" ∅), mkEnv "" 19) ].

(** messaging switched off and one message allowed per listing *)
Definition configNoMessaging : MarketplaceConfig.t :=
  MarketplaceConfig.mk
    (MarketplaceConfig.mkFeatures false false true)
    (MarketplaceConfig.roles MarketplaceConfig.defaults)
    (MarketplaceConfig.mkLimits 50 10 20 1).

End Scenario.

(** * Properties *)

(** ** Running the storage monad *)

Lemma bind_run {A B} (m : M A) (f : A → M B) (db : Database) :
  (m ≫= f) db =
  match m db with
  | (Returned a, db') => f a db'
  | (Threw e, db') => (Threw e, db')
  end.
Proof. reflexivity. Qed.

Lemma try_catch_db (body : M Response) (db : Database) :
  (MarketplaceController.try_catch body db).2 = (body db).2.
Proof.
  unfold MarketplaceController.try_catch.
  by destruct (body db) as [[r|e] db'].
Qed.

(** unfold the monad's plumbing, leaving the map operations in place *)
Ltac mrun :=
  cbv [mbind M_bind mret M_ret get put throw Prisma.findListingById
       MarketplaceController.parse MarketplaceController.try_catch];
  cbn [fst snd].

(** ** Frame conditions, compositionally

    For a reflexive and transitive [R], [preserves R] goes through the monad:
    it is enough to know it of the storage operations a handler calls. *)
Section Preservation.
Context (R : relation Database) `{!PreOrder R}.

Lemma preserves_run {A} (m : M A) (db : Database) : preserves R m → R db (m db).2.
Proof. by intros [H]. Qed.

Lemma preserves_ret {A} (a : A) : preserves R (mret a).
Proof. constructor. intros db. reflexivity. Qed.

Lemma preserves_throw {A} (e : Thrown) : preserves R (@throw A e).
Proof. constructor. intros db. reflexivity. Qed.

Lemma preserves_bind {A B} (m : M A) (f : A → M B) :
  preserves R m → (∀ a, preserves R (f a)) → preserves R (m ≫= f).
Proof.
  intros [Hm] Hf. constructor. intros db. rewrite bind_run.
  specialize (Hm db). destruct (m db) as [[a|e] db']; simpl in *; [|done].
  etrans; [exact Hm | apply preserves_run, Hf].
Qed.

(** what follows a [parse] only runs on a value the schema produced *)
Lemma preserves_bind_parse {A B} (r : option A) (f : A → M B) :
  (∀ a, r = Some a → preserves R (f a)) →
  preserves R (MarketplaceController.parse r ≫= f).
Proof.
  intros Hf. destruct r as [a|]; [|apply preserves_throw].
  constructor. intros db. by apply (preserves_run (f a)), Hf.
Qed.

Lemma preserves_findListingById (id : string) : preserves R (Prisma.findListingById id).
Proof. constructor. intros db. reflexivity. Qed.

Lemma preserves_findListings (q : ListingQuery.t) : preserves R (Prisma.findListings q).
Proof. constructor. intros db. reflexivity. Qed.

Lemma preserves_try_catch (body : M Response) (db : Database) :
  preserves R body → R db (MarketplaceController.try_catch body db).2.
Proof. intros [H]. rewrite try_catch_db. apply H. Qed.

End Preservation.

#[global] Instance same_statuses_preorder : PreOrder same_statuses.
Proof.
  split; [by intros db j | intros db1 db2 db3 H12 H23 j; by rewrite H23].
Qed.

#[global] Instance same_offer_statuses_preorder : PreOrder same_offer_statuses.
Proof.
  split; [by intros db j | intros db1 db2 db3 H12 H23 j; by rewrite H23].
Qed.

#[global] Instance sellers_kept_preorder : PreOrder sellers_kept.
Proof.
  split; [by intros db j s | intros db1 db2 db3 H12 H23 j s Hs; by apply H23, H12].
Qed.

(** The frame lemmas of the storage operations are collected in the hint
    database [preserves]; [preserve_steps] splits a handler into the storage
    operations it is made of and looks each one up there. *)
Create HintDb preserves.
#[global] Hint Resolve preserves_ret preserves_throw preserves_findListingById
  preserves_findListings : preserves.
#[global] Hint Extern 1 (PreOrder _) => apply _ : preserves.

Ltac preserve_steps :=
  repeat first
    [ solve [eauto 4 with preserves]
    | simple apply preserves_bind_parse; [apply _ | intros ? ?]
    | simple apply preserves_bind; [apply _ | | intros ?]
    | case_match ].

(** ** createOffer *)

(** C6.  An offer on an existing listing whose status is not AVAILABLE fails with
    LISTING_UNAVAILABLE, whatever the caller and the body, and the database is
    left exactly as it was: no offer is created. *)
Theorem createOffer_listing_unavailable (c : Context.t) (env : Env) (db : Database)
    (l : MarketplaceListing.t) :
  listings db !! Context.param c = Some l →
  MarketplaceListing.status l ≠ ListingStatus.AVAILABLE →
  MarketplaceController.createOffer c env db =
    (errorResponse (MarketplaceError LISTING_UNAVAILABLE "Listing is not available for offers"),
     db).
Proof.
  intros Hl Hs. unfold MarketplaceController.createOffer. mrun.
  rewrite Hl. cbn. by rewrite decide_True.
Qed.

Lemma createOffer_listing_unavailable_witness :
  MarketplaceController.createOffer
    (Context.mk Sample.buyer1 "L1" (Sample.offerBody 100) Sample.noQuery)
    Sample.env1 (Sample.store ListingStatus.PENDING_PAYMENT) =
  (errorResponse (MarketplaceError LISTING_UNAVAILABLE "Listing is not available for offers"),
   Sample.store ListingStatus.PENDING_PAYMENT).
Proof.
  apply (createOffer_listing_unavailable _ _ _ (Sample.bike ListingStatus.PENDING_PAYMENT));
    [reflexivity | discriminate].
Defined.

(** C3 as stated is refuted: the seller offering on their own listing that is
    already SOLD is told LISTING_UNAVAILABLE, not SELF_OFFER, because the status
    guard comes first. *)
Lemma createOffer_self_offer_not_regardless_of_status :
  ¬ (∀ (c : Context.t) (env : Env) (db : Database) (l : MarketplaceListing.t),
       listings db !! Context.param c = Some l →
       MarketplaceListing.sellerId l = UserContext.id (Context.user c) →
       ∃ message,
         (MarketplaceController.createOffer c env db).1 =
           errorResponse (MarketplaceError SELF_OFFER message)).
Proof.
  intros H.
  destruct (H (Context.mk Sample.seller "L1" (Sample.offerBody 100) Sample.noQuery)
              Sample.env1 (Sample.store ListingStatus.SOLD) (Sample.bike ListingStatus.SOLD)
              eq_refl eq_refl) as [message Hm].
  vm_compute in Hm. discriminate Hm.
Qed.

(** C3, amended.  When the listing is AVAILABLE and the caller is its seller, the
    offer fails with SELF_OFFER whatever the body, and nothing is stored. *)
Theorem createOffer_self_offer (c : Context.t) (env : Env) (db : Database)
    (l : MarketplaceListing.t) :
  listings db !! Context.param c = Some l →
  MarketplaceListing.status l = ListingStatus.AVAILABLE →
  MarketplaceListing.sellerId l = UserContext.id (Context.user c) →
  MarketplaceController.createOffer c env db =
    (errorResponse (MarketplaceError SELF_OFFER "You cannot make an offer on your own listing"),
     db).
Proof.
  intros Hl Hs Hu. unfold MarketplaceController.createOffer. mrun.
  rewrite Hl. cbn. rewrite decide_False by (by rewrite Hs; intros ?).
  by rewrite decide_True.
Qed.

Lemma createOffer_self_offer_witness :
  MarketplaceController.createOffer
    (Context.mk Sample.seller "L1" ∅ Sample.noQuery)
    Sample.env1 (Sample.store ListingStatus.AVAILABLE) =
  (errorResponse (MarketplaceError SELF_OFFER "You cannot make an offer on your own listing"),
   Sample.store ListingStatus.AVAILABLE).
Proof.
  apply (createOffer_self_offer _ _ _ (Sample.bike ListingStatus.AVAILABLE)); reflexivity.
Defined.

(** C2 as stated is refuted: with [maxOffersPerListing = 1] and one pending offer
    already on the listing, a second buyer's offer is accepted by the route. *)
Lemma createOffer_limit_not_enforced :
  ¬ (∀ (config : MarketplaceConfig.t) (c : Context.t) (env : Env) (db : Database),
       MarketplaceConfig.valid config →
       MarketplaceConfig.maxOffersPerListing (MarketplaceConfig.limits config)
         ≤ Z.of_nat (nonTerminalOffers db (Context.param c)) →
       isSuccess (MarketplacePlugin.request config MarketplacePlugin.POST_listings_offers
                    c env db).1 = false).
Proof.
  intros H.
  specialize (H Sample.configOneOffer
                (Context.mk Sample.buyer2 "L1" (Sample.offerBody 120) Sample.noQuery)
                Sample.env1 (Sample.storeWithOffer ListingStatus.AVAILABLE)).
  assert (Hv : MarketplaceConfig.valid Sample.configOneOffer)
    by (repeat split; vm_compute; discriminate).
  assert (Hn : MarketplaceConfig.maxOffersPerListing
                 (MarketplaceConfig.limits Sample.configOneOffer)
               ≤ Z.of_nat (nonTerminalOffers (Sample.storeWithOffer ListingStatus.AVAILABLE) "L1"))
    by (vm_compute; discriminate).
  specialize (H Hv Hn). vm_compute in H. discriminate H.
Qed.

Lemma nonTerminalOffers_insert (db : Database) (o : ListingOffer.t) (key : string) :
  offers db !! key = None →
  ListingOffer.status o = OfferStatus.PENDING →
  nonTerminalOffers (mkDatabase (listings db) (<[key := o]> (offers db)) (messages db))
    (ListingOffer.listingId o)
  = S (nonTerminalOffers db (ListingOffer.listingId o)).
Proof.
  intros Hk Ho. unfold nonTerminalOffers. cbn.
  rewrite map_filter_insert_True by done.
  apply map_size_insert_None. by apply map_lookup_filter_None_2; left.
Qed.

(** C2, amended.  No limit is consulted: on an AVAILABLE listing, a permitted
    caller other than the seller with a valid body always gets a PENDING offer
    stored, whatever the configured [maxOffersPerListing] and however many
    non-terminal offers the listing already has; their number grows by one. *)
Theorem createOffer_succeeds_without_limit (config : MarketplaceConfig.t) (c : Context.t)
    (env : Env) (db : Database) (l : MarketplaceListing.t) (v : CreateOfferInput.t) :
  MarketplacePlugin.includes
    (MarketplaceConfig.canMakeOffers (MarketplaceConfig.roles config))
    (UserContext.role (Context.user c)) = true →
  listings db !! Context.param c = Some l →
  MarketplaceListing.status l = ListingStatus.AVAILABLE →
  MarketplaceListing.sellerId l ≠ UserContext.id (Context.user c) →
  Zod.offerSchema (Context.json c) = Some v →
  offers db !! uuid env = None →
  ∃ o,
    MarketplacePlugin.request config MarketplacePlugin.POST_listings_offers c env db =
      (successResponse (POffer o) 201,
       mkDatabase (listings db) (<[uuid env := o]> (offers db)) (messages db))
    ∧ ListingOffer.status o = OfferStatus.PENDING
    ∧ ListingOffer.listingId o = Context.param c
    ∧ ListingOffer.buyerId o = UserContext.id (Context.user c)
    ∧ ListingOffer.amount o = CreateOfferInput.amount v
    ∧ nonTerminalOffers
        (mkDatabase (listings db) (<[uuid env := o]> (offers db)) (messages db))
        (Context.param c)
      = S (nonTerminalOffers db (Context.param c)).
Proof.
  intros Hrole Hl Hs Hu Hv Hfresh.
  eexists. split; [|split; [|split; [|split; [|split]]]].
  - unfold MarketplacePlugin.request.
    rewrite decide_True by (unfold MarketplacePlugin.getRoutes; set_solver).
    unfold MarketplacePlugin.handler. rewrite Hrole. cbn [negb].
    unfold MarketplaceController.createOffer. mrun.
    rewrite Hl. cbn. rewrite decide_False by (by rewrite Hs; intros ?).
    rewrite decide_False by done. rewrite Hv.
    unfold Prisma.createOffer. mrun. rewrite Hfresh, Hl. reflexivity.
  - reflexivity.
  - reflexivity.
  - reflexivity.
  - reflexivity.
  - match goal with
    | |- nonTerminalOffers (mkDatabase _ (<[_ := ?o]> _) _) _ = _ =>
        apply (nonTerminalOffers_insert db o (uuid env) Hfresh eq_refl)
    end.
Qed.

Lemma createOffer_succeeds_without_limit_witness :
  ∃ o,
    MarketplacePlugin.request Sample.configOneOffer MarketplacePlugin.POST_listings_offers
      (Context.mk Sample.buyer2 "L1" (Sample.offerBody 120) Sample.noQuery)
      Sample.env1 (Sample.storeWithOffer ListingStatus.AVAILABLE) =
      (successResponse (POffer o) 201,
       mkDatabase (listings (Sample.storeWithOffer ListingStatus.AVAILABLE))
         (<["O2" := o]> (offers (Sample.storeWithOffer ListingStatus.AVAILABLE)))
         (messages (Sample.storeWithOffer ListingStatus.AVAILABLE)))
    ∧ ListingOffer.status o = OfferStatus.PENDING
    ∧ ListingOffer.listingId o = "L1"
    ∧ ListingOffer.buyerId o = "B2"
    ∧ ListingOffer.amount o = 120
    ∧ nonTerminalOffers
        (mkDatabase (listings (Sample.storeWithOffer ListingStatus.AVAILABLE))
           (<["O2" := o]> (offers (Sample.storeWithOffer ListingStatus.AVAILABLE)))
           (messages (Sample.storeWithOffer ListingStatus.AVAILABLE)))
        "L1"
      = S (nonTerminalOffers (Sample.storeWithOffer ListingStatus.AVAILABLE) "L1").
Proof.
  apply (createOffer_succeeds_without_limit Sample.configOneOffer
           (Context.mk Sample.buyer2 "L1" (Sample.offerBody 120) Sample.noQuery)
           Sample.env1 (Sample.storeWithOffer ListingStatus.AVAILABLE)
           (Sample.bike ListingStatus.AVAILABLE) (CreateOfferInput.mk 120 None));
    [reflexivity | reflexivity | reflexivity | discriminate | reflexivity | reflexivity].
Defined.

(** ** createListing and approval *)

Lemma alter_as_insert {A} (f : A → A) (m : gmap string A) (i : string) (x : A) :
  m !! i = Some x → alter f i m = <[i := f x]> m.
Proof.
  intros Hx. apply map_eq. intros j.
  rewrite lookup_alter, lookup_insert.
  case_decide; [subst; by rewrite Hx | done].
Qed.

Lemma updateListing_run (id : string) (data : UpdateListingInput.t) (env : Env)
    (db : Database) (l : MarketplaceListing.t) :
  listings db !! id = Some l →
  UpdateListingInput.status data ≠ None →
  Prisma.updateListing id data env db =
    (Returned (ListingResult.mk (Prisma.setListing data (now env) l)
                 (Prisma.offersOf db id) (Prisma.messagesOf db id)),
     mkDatabase (<[id := Prisma.setListing data (now env) l]> (listings db))
       (offers db) (messages db)).
Proof.
  intros Hl Hs. unfold Prisma.updateListing. mrun.
  rewrite decide_True.
  - cbn. rewrite lookup_alter_eq, Hl. cbn.
    by rewrite (alter_as_insert _ _ _ l).
  - unfold Prisma.listingClauses.
    destruct (UpdateListingInput.status data); [cbn; lia | done].
Qed.

(** Whatever the configuration, a listing that [POST /listings] creates is stored
    and returned in status PENDING_APPROVAL. *)
Lemma createListing_always_pending_approval (config : MarketplaceConfig.t) (c : Context.t)
    (env : Env) (db db' : Database) (p : Payload) (st : nat) :
  MarketplacePlugin.request config MarketplacePlugin.POST_listings c env db
    = (successResponse p st, db') →
  ∃ r, p = PListing (Some r)
       ∧ MarketplaceListing.status (ListingResult.row r) = ListingStatus.PENDING_APPROVAL
       ∧ listingStatus db' (uuid env) = Some ListingStatus.PENDING_APPROVAL.
Proof.
  unfold MarketplacePlugin.request.
  rewrite decide_True by (unfold MarketplacePlugin.getRoutes; set_solver).
  unfold MarketplacePlugin.handler. case_match; cbn [negb]; [done|].
  unfold MarketplaceController.createListing. mrun.
  destruct (Zod.listingSchema (Context.json c)) as [v|]; cbn; [|done].
  unfold Prisma.createListing. mrun.
  destruct (listings db !! uuid env) eqn:Hfresh; cbn; [done|].
  rewrite lookup_insert_eq. cbn. intros [= <- <- <-].
  eexists. split; [reflexivity|]. split; [reflexivity|].
  unfold listingStatus. cbn. by rewrite lookup_insert_eq.
Qed.

(** C4, at the failing input.  With auto-approval switched on, a valid
    [POST /listings] by a permitted user still yields a PENDING_APPROVAL listing,
    and the approval route that could move it on is not registered. *)
Theorem createListing_ignores_autoApproval :
  let created :=
    MarketplacePlugin.request Sample.configAutoApproval MarketplacePlugin.POST_listings
      (Context.mk Sample.seller "" Sample.listingBody Sample.noQuery)
      (mkEnv "L2" 5) (mkDatabase ∅ ∅ ∅) in
  MarketplaceConfig.autoApproval (MarketplaceConfig.features Sample.configAutoApproval) = true
  ∧ isSuccess created.1 = true
  ∧ listingStatus created.2 "L2" = Some ListingStatus.PENDING_APPROVAL
  ∧ MarketplacePlugin.request Sample.configAutoApproval MarketplacePlugin.POST_listings_approve
      (Context.mk Sample.seller "L2" ∅ Sample.noQuery) (mkEnv "" 6) created.2
    = (noRoute, created.2).
Proof. vm_compute. done. Qed.

(** C5 as stated is refuted: approving a SOLD listing succeeds and puts it back
    to AVAILABLE. *)
Lemma approve_has_no_status_guard :
  ¬ (∀ (config : MarketplaceConfig.t) (c : Context.t) (env : Env) (db : Database)
       (l : MarketplaceListing.t),
       listings db !! Context.param c = Some l →
       MarketplaceListing.status l ≠ ListingStatus.PENDING_APPROVAL →
       let result :=
         MarketplacePlugin.request config MarketplacePlugin.POST_listings_approve c env db in
       isSuccess result.1 = false
       ∧ listingStatus result.2 (Context.param c) = Some (MarketplaceListing.status l)).
Proof.
  intros H.
  destruct (H MarketplaceConfig.defaults
              (Context.mk Sample.seller "L1" ∅ Sample.noQuery) Sample.env1
              (Sample.store ListingStatus.SOLD) (Sample.bike ListingStatus.SOLD)
              eq_refl ltac:(discriminate)) as [Hfail _].
  vm_compute in Hfail. discriminate Hfail.
Qed.

(** C5, amended.  Where the approval route exists and the caller's role may
    approve, approving an existing listing succeeds from any status: the listing
    ends AVAILABLE and every other listing is untouched. *)
Theorem approve_from_any_status (config : MarketplaceConfig.t) (c : Context.t) (env : Env)
    (db : Database) (l : MarketplaceListing.t) :
  MarketplaceConfig.autoApproval (MarketplaceConfig.features config) = false →
  MarketplacePlugin.includes
    (MarketplaceConfig.canApproveListings (MarketplaceConfig.roles config))
    (UserContext.role (Context.user c)) = true →
  listings db !! Context.param c = Some l →
  let result :=
    MarketplacePlugin.request config MarketplacePlugin.POST_listings_approve c env db in
  result.1 = jsonSuccess
  ∧ listingStatus result.2 (Context.param c) = Some ListingStatus.AVAILABLE
  ∧ (∀ j, j ≠ Context.param c → listings result.2 !! j = listings db !! j)
  ∧ offers result.2 = offers db.
Proof.
  intros Hauto Hrole Hl. cbv zeta.
  unfold MarketplacePlugin.request.
  rewrite decide_True by (unfold MarketplacePlugin.getRoutes; rewrite Hauto; set_solver).
  unfold MarketplacePlugin.handler. rewrite Hrole. cbn [negb].
  unfold MarketplaceController.handleListingApproved.
  rewrite bind_run, (updateListing_run _ _ _ _ l) by done.
  cbn. unfold listingStatus. cbn. rewrite lookup_insert_eq.
  repeat split. intros j Hj. by rewrite lookup_insert_ne.
Qed.

Lemma approve_from_any_status_witness :
  let result :=
    MarketplacePlugin.request MarketplaceConfig.defaults
      MarketplacePlugin.POST_listings_approve
      (Context.mk Sample.seller "L1" ∅ Sample.noQuery) Sample.env1
      (Sample.store ListingStatus.SOLD) in
  result.1 = jsonSuccess
  ∧ listingStatus result.2 "L1" = Some ListingStatus.AVAILABLE
  ∧ (∀ j, j ≠ "L1" → listings result.2 !! j = listings (Sample.store ListingStatus.SOLD) !! j)
  ∧ offers result.2 = offers (Sample.store ListingStatus.SOLD).
Proof.
  apply (approve_from_any_status MarketplaceConfig.defaults
           (Context.mk Sample.seller "L1" ∅ Sample.noQuery) Sample.env1
           (Sample.store ListingStatus.SOLD) (Sample.bike ListingStatus.SOLD));
    reflexivity.
Defined.

(** ** payment.completed *)

Lemma handleEvent_payment_completed (id : string) (env : Env) (db : Database)
    (l : MarketplaceListing.t) :
  listings db !! id = Some l →
  MarketplacePlugin.handleEvent "payment.completed" id env db =
    (Returned (),
     mkDatabase
       (<[id := Prisma.setListing
                  (UpdateListingInput.mk None None None None None None
                     (Some ListingStatus.SOLD)) (now env) l]> (listings db))
       (offers db) (messages db)).
Proof.
  intros Hl.
  change (MarketplacePlugin.handleEvent "payment.completed" id env)
    with (MarketplaceController.handlePaymentCompleted id env).
  unfold MarketplaceController.handlePaymentCompleted.
  by rewrite bind_run, (updateListing_run _ _ _ _ l).
Qed.

(** C7.  For a stored listing, the payment notification returns normally and
    leaves the listing SOLD; a second notification returns normally too and the
    database after both is the database the second one alone would have
    produced, so with the same clock reading the second call changes nothing. *)
Theorem markSold_idempotent (id : string) (env1 env2 : Env) (db : Database)
    (l : MarketplaceListing.t) :
  listings db !! id = Some l →
  let once := MarketplacePlugin.handleEvent "payment.completed" id env1 db in
  let twice := MarketplacePlugin.handleEvent "payment.completed" id env2 once.2 in
  once.1 = Returned ()
  ∧ twice.1 = Returned ()
  ∧ listingStatus once.2 id = Some ListingStatus.SOLD
  ∧ listingStatus twice.2 id = Some ListingStatus.SOLD
  ∧ twice.2 = (MarketplacePlugin.handleEvent "payment.completed" id env2 db).2
  ∧ (now env2 = now env1 → twice.2 = once.2).
Proof.
  intros Hl. cbv zeta.
  rewrite (handleEvent_payment_completed id env1 db l Hl).
  rewrite (handleEvent_payment_completed id env2 db l Hl).
  cbn [fst snd].
  erewrite handleEvent_payment_completed by (cbn; apply lookup_insert_eq).
  cbn [fst snd listings offers messages].
  unfold listingStatus. cbn [listings].
  rewrite insert_insert_eq, !lookup_insert_eq.
  repeat split. intros Hnow. unfold Prisma.setListing. cbn. by rewrite Hnow.
Qed.

Lemma markSold_idempotent_witness :
  let db := Sample.store ListingStatus.PENDING_PAYMENT in
  let once := MarketplacePlugin.handleEvent "payment.completed" "L1" Sample.env1 db in
  let twice := MarketplacePlugin.handleEvent "payment.completed" "L1" Sample.env2 once.2 in
  once.1 = Returned ()
  ∧ twice.1 = Returned ()
  ∧ listingStatus once.2 "L1" = Some ListingStatus.SOLD
  ∧ listingStatus twice.2 "L1" = Some ListingStatus.SOLD
  ∧ twice.2 = (MarketplacePlugin.handleEvent "payment.completed" "L1" Sample.env2 db).2
  ∧ (now Sample.env2 = now Sample.env1 → twice.2 = once.2).
Proof.
  apply (markSold_idempotent "L1" Sample.env1 Sample.env2
           (Sample.store ListingStatus.PENDING_PAYMENT)
           (Sample.bike ListingStatus.PENDING_PAYMENT)).
  reflexivity.
Defined.

(** ** updateListing *)

Lemma listingSchema_partial_status (data : gmap string jval) (v : UpdateListingInput.t) :
  Zod.listingSchema_partial data = Some v → UpdateListingInput.status v = None.
Proof.
  unfold Zod.listingSchema_partial. intros H.
  repeat (apply bind_Some in H; destruct H as (? & _ & H)).
  by injection H as <-.
Qed.

(** [z.object] strips undeclared keys: the parse does not see [status]. *)
Lemma listingSchema_partial_strips_status (data : gmap string jval) :
  Zod.listingSchema_partial (delete "status" data) = Zod.listingSchema_partial data.
Proof.
  unfold Zod.listingSchema_partial. by rewrite !lookup_delete_ne.
Qed.

Lemma lookup_alter_fmap {A B} (g : A → B) (f : A → A) (m : gmap string A) (i j : string) :
  (∀ a, g (f a) = g a) → g <$> alter f i m !! j = g <$> m !! j.
Proof.
  intros Hg. rewrite lookup_alter. case_decide; [|done].
  subst. destruct (m !! j); simpl; [by rewrite Hg | done].
Qed.

Lemma updateListing_same_statuses (id : string) (data : UpdateListingInput.t) (env : Env) :
  UpdateListingInput.status data = None →
  preserves same_statuses (Prisma.updateListing id data env).
Proof.
  intros Hs. constructor. intros db j. unfold Prisma.updateListing. mrun.
  case_decide; cbn.
  - case_match; cbn; unfold listingStatus; cbn;
      apply lookup_alter_fmap; intros a; cbn; by rewrite Hs.
  - by case_match.
Qed.

#[global] Hint Resolve updateListing_same_statuses listingSchema_partial_status : preserves.

(** C8.  [PUT /listings/:id] never changes a status: every listing of the
    database keeps its status; a listing that is returned carries the status the
    stored one had before the call; and a [status] key of the body is dropped
    unread, the call behaving exactly as on the body without it. *)
Theorem updateListing_keeps_status (c : Context.t) (env : Env) (db : Database) :
  let result := MarketplaceController.updateListing c env db in
  (∀ j, listingStatus result.2 j = listingStatus db j)
  ∧ match result.1 with
    | successResponse (PListing (Some r)) _ =>
        listingStatus db (Context.param c)
        = Some (MarketplaceListing.status (ListingResult.row r))
    | successResponse _ _ => False
    | _ => True
    end
  ∧ result =
      MarketplaceController.updateListing
        (Context.mk (Context.user c) (Context.param c)
           (delete "status" (Context.json c)) (Context.query c))
        env db.
Proof.
  cbv zeta. split; [|split].
  - apply (preserves_try_catch same_statuses). preserve_steps.
  - unfold MarketplaceController.updateListing. mrun.
    destruct (listings db !! Context.param c) as [l|] eqn:Hl; cbn; [|done].
    case_decide; cbn; [done|].
    destruct (Zod.listingSchema_partial (Context.json c)) as [v|] eqn:Hv; cbn; [|done].
    apply listingSchema_partial_status in Hv.
    unfold Prisma.updateListing. mrun. unfold listingStatus.
    case_decide; cbn.
    + rewrite lookup_alter_eq, Hl. cbn. by rewrite Hv.
    + by rewrite Hl.
  - unfold MarketplaceController.updateListing. cbn [Context.json Context.user Context.param].
    by rewrite listingSchema_partial_strips_status.
Qed.

(** The seller sends a new title together with [status: "SOLD"]: the title is
    stored, the status is not. *)
Example updateListing_status_in_body :
  let result :=
    MarketplaceController.updateListing
      (Context.mk Sample.seller "L1"
         {[ "title" := JStr "Red bike"; "status" := JStr "SOLD" ]} Sample.noQuery)
      Sample.env1 (Sample.store ListingStatus.AVAILABLE) in
  isSuccess result.1 = true
  ∧ MarketplaceListing.title <$> listings result.2 !! "L1" = Some "Red bike"
  ∧ listingStatus result.2 "L1" = Some ListingStatus.AVAILABLE.
Proof. vm_compute. done. Qed.

(** ** updateOffer *)

Lemma offerSchema_partial_status (data : gmap string jval) (v : UpdateOfferInput.t) :
  Zod.offerSchema_partial data = Some v → UpdateOfferInput.status v = None.
Proof.
  unfold Zod.offerSchema_partial. intros H.
  repeat (apply bind_Some in H; destruct H as (? & _ & H)).
  by injection H as <-.
Qed.

Lemma prisma_updateListing_keeps_offers (id : string) (data : UpdateListingInput.t)
    (env : Env) (db : Database) :
  offers (Prisma.updateListing id data env db).2 = offers db.
Proof.
  unfold Prisma.updateListing. mrun. case_decide; cbn; by case_match.
Qed.

Lemma prisma_updateOffer_keeps_listings (id : string) (data : UpdateOfferInput.t)
    (env : Env) (db : Database) :
  listings (Prisma.updateOffer id data env db).2 = listings db.
Proof.
  unfold Prisma.updateOffer. mrun. case_decide; cbn; [done|]. by case_match.
Qed.

Lemma prisma_updateListing_same_offer_statuses (id : string) (data : UpdateListingInput.t)
    (env : Env) :
  preserves same_offer_statuses (Prisma.updateListing id data env).
Proof.
  constructor. intros db j. unfold offerStatus.
  by rewrite prisma_updateListing_keeps_offers.
Qed.

Lemma prisma_updateOffer_same_offer_statuses (id : string) (data : UpdateOfferInput.t)
    (env : Env) :
  UpdateOfferInput.status data = None →
  preserves same_offer_statuses (Prisma.updateOffer id data env).
Proof.
  intros Hs. constructor. intros db j. unfold Prisma.updateOffer. mrun.
  case_decide; cbn; [done|].
  destruct (offers db !! id) as [o|] eqn:Ho; cbn; [|done].
  unfold offerStatus. cbn. rewrite lookup_insert. case_decide; [|done].
  subst j. rewrite Ho. cbn. by rewrite Hs.
Qed.

#[global] Hint Resolve prisma_updateListing_same_offer_statuses
  prisma_updateOffer_same_offer_statuses offerSchema_partial_status : preserves.

(** The offer's status is never written: whatever the request, every offer keeps
    the status it had. *)
Lemma updateOffer_keeps_offer_statuses (c : Context.t) (env : Env) (db : Database) :
  same_offer_statuses db (MarketplaceController.updateOffer c env db).2.
Proof.
  unfold MarketplaceController.updateOffer.
  apply (preserves_try_catch same_offer_statuses). preserve_steps.
Qed.

(** An accept with neither [amount] nor [message] leaves nothing after
    validation; the storage client then throws before any statement is sent. *)
Lemma updateOffer_plain_accept_fails (c : Context.t) (env : Env) (db : Database) :
  Context.json c !! "amount" = None →
  Context.json c !! "message" = None →
  ∃ e, MarketplaceController.updateOffer c env db = (errorResponse e, db).
Proof.
  intros Ha Hm. unfold MarketplaceController.updateOffer. mrun.
  unfold Zod.offerSchema_partial. rewrite Ha, Hm. cbn.
  destruct (listings db !! Context.param c); cbn; [|by eexists].
  destruct (truthy _ && _); cbn; [by eexists|].
  unfold Prisma.updateOffer. cbn. by eexists.
Qed.

(** When no key is shared by a listing and an offer, no [PUT /offers/:id]
    succeeds and none changes the database. *)
Lemma updateOffer_fails_without_shared_key (c : Context.t) (env : Env) (db : Database) :
  (∀ k, is_Some (listings db !! k) → offers db !! k = None) →
  ∃ e, MarketplaceController.updateOffer c env db = (errorResponse e, db).
Proof.
  intros Hk. unfold MarketplaceController.updateOffer. mrun.
  destruct (listings db !! Context.param c) as [l|] eqn:Hl; cbn; [|by eexists].
  specialize (Hk (Context.param c) (mk_is_Some _ _ Hl)).
  destruct (truthy _ && _); cbn; [by eexists|].
  destruct (_ && _); cbn; [by eexists|].
  destruct (Zod.offerSchema_partial _); cbn; [|by eexists].
  unfold Prisma.updateOffer. mrun. case_decide; cbn; [by eexists|].
  rewrite Hk. by eexists.
Qed.

(** C1, at the failing input.  Listing ["K"] of seller S is AVAILABLE and its
    pending offer is stored under the same key.  S accepts with
    [{status: "ACCEPTED", amount: 0}]: the request succeeds, the listing moves to
    PENDING_PAYMENT, and the offer is still PENDING. *)
Theorem accept_moves_listing_but_not_offer :
  let c := Context.mk Sample.seller "K" Sample.acceptBodyZero Sample.noQuery in
  let result := MarketplaceController.updateOffer c Sample.env1 Sample.storeSharedKey in
  listingSeller Sample.storeSharedKey "K" = Some (UserContext.id Sample.seller)
  ∧ ListingOffer.listingId <$> offers Sample.storeSharedKey !! "K" = Some "K"
  ∧ offerStatus Sample.storeSharedKey "K" = Some OfferStatus.PENDING
  ∧ isSuccess result.1 = true
  ∧ listingStatus result.2 "K" = Some ListingStatus.PENDING_PAYMENT
  ∧ offerStatus result.2 "K" = Some OfferStatus.PENDING.
Proof. vm_compute. done. Qed.

(** C10.  [updateOffer] reads the listing stored under the offer's id.  When
    there is none the request fails with LISTING_NOT_FOUND and changes nothing,
    whatever the offers table holds.  When there is one, it is that listing's
    seller the permission check compares the caller with, and that listing which
    an accepted request leaves in PENDING_PAYMENT. *)
Theorem updateOffer_reads_listing_under_offer_id (c : Context.t) (env : Env) (db : Database) :
  let result := MarketplaceController.updateOffer c env db in
  match listings db !! Context.param c with
  | None =>
      result = (errorResponse (MarketplaceError LISTING_NOT_FOUND "Listing not found"), db)
  | Some l =>
      (truthy (Context.json c !! "status") = true →
       MarketplaceListing.sellerId l ≠ UserContext.id (Context.user c) →
       result = (errorResponse (MarketplaceError FORBIDDEN
                                  "Only the seller can accept or reject offers"), db))
      ∧ (MarketplaceListing.id l = Context.param c →
         isSuccess result.1 = true →
         strict_eq_string (Context.json c !! "status") "ACCEPTED" = true →
         listingStatus result.2 (Context.param c) = Some ListingStatus.PENDING_PAYMENT)
  end.
Proof.
  cbv zeta. unfold MarketplaceController.updateOffer. mrun.
  destruct (listings db !! Context.param c) as [l|] eqn:Hl; cbn; [|done].
  split.
  - intros -> Hne. by rewrite bool_decide_true.
  - intros Hid Hok Hacc. revert Hok.
    change (OfferStatus_value OfferStatus.ACCEPTED) with "ACCEPTED". rewrite Hacc.
    destruct (truthy _ && _); cbn; [done|].
    destruct (_ && _); cbn; [done|].
    destruct (Zod.offerSchema_partial _) as [v|]; cbn; [|done].
    pose proof (prisma_updateOffer_keeps_listings (Context.param c) v env db) as Hkeep.
    destruct (Prisma.updateOffer _ v env db) as [[o|e] db1]; cbn in *; [|done].
    rewrite Hid, (updateListing_run _ _ _ db1 l) by (done || by rewrite Hkeep).
    cbn. intros _. unfold listingStatus. cbn. by rewrite lookup_insert_eq.
Qed.

Lemma updateOffer_reads_listing_under_offer_id_witness :
  let c := Context.mk Sample.seller "O1" Sample.acceptBody Sample.noQuery in
  let db := Sample.storeWithOffer ListingStatus.AVAILABLE in
  offers db !! "O1" = Some Sample.offer1
  ∧ listings db !! ListingOffer.listingId Sample.offer1
    = Some (Sample.bike ListingStatus.AVAILABLE)
  ∧ MarketplaceController.updateOffer c Sample.env1 db
    = (errorResponse (MarketplaceError LISTING_NOT_FOUND "Listing not found"), db).
Proof.
  split; [reflexivity | split; [reflexivity |]].
  exact (updateOffer_reads_listing_under_offer_id
           (Context.mk Sample.seller "O1" Sample.acceptBody Sample.noQuery)
           Sample.env1 (Sample.storeWithOffer ListingStatus.AVAILABLE)).
Defined.

(** ** sellerId *)

Lemma prisma_createListing_sellers_kept (data : CreateListingInput.t) (sellerId : string)
    (env : Env) :
  preserves sellers_kept (Prisma.createListing data sellerId env).
Proof.
  constructor. intros db j s. unfold Prisma.createListing. mrun.
  destruct (listings db !! uuid env) eqn:Hfresh; cbn; [done|].
  unfold listingSeller. cbn. intros Hs.
  rewrite lookup_insert_ne; [done|]. intros <-. by rewrite Hfresh in Hs.
Qed.

Lemma prisma_updateListing_sellers_kept (id : string) (data : UpdateListingInput.t)
    (env : Env) :
  preserves sellers_kept (Prisma.updateListing id data env).
Proof.
  constructor. intros db j s. unfold Prisma.updateListing. mrun.
  case_decide; cbn.
  - case_match; cbn; unfold listingSeller; cbn;
      by rewrite (lookup_alter_fmap MarketplaceListing.sellerId).
  - by case_match.
Qed.

Lemma prisma_createOffer_sellers_kept (data : CreateOfferInput.t) (listingId buyerId : string)
    (env : Env) :
  preserves sellers_kept (Prisma.createOffer data listingId buyerId env).
Proof.
  constructor. intros db j s. unfold Prisma.createOffer. mrun.
  by repeat (case_match; cbn).
Qed.

Lemma prisma_updateOffer_sellers_kept (id : string) (data : UpdateOfferInput.t) (env : Env) :
  preserves sellers_kept (Prisma.updateOffer id data env).
Proof.
  constructor. intros db j s. unfold listingSeller.
  by rewrite prisma_updateOffer_keeps_listings.
Qed.

Lemma prisma_createMessage_sellers_kept (data : CreateMessageInput.t)
    (listingId senderId : string) (env : Env) :
  preserves sellers_kept (Prisma.createMessage data listingId senderId env).
Proof.
  constructor. intros db j s. unfold Prisma.createMessage. mrun.
  by repeat (case_match; cbn).
Qed.

#[global] Hint Resolve prisma_createListing_sellers_kept prisma_updateListing_sellers_kept
  prisma_createOffer_sellers_kept prisma_updateOffer_sellers_kept
  prisma_createMessage_sellers_kept : preserves.

(** [DELETE /listings/:id] either removes the listing stored under [:id] or
    leaves the listings table as it was. *)
Lemma deleteListing_listings (c : Context.t) (db : Database) :
  let db' := (MarketplaceController.deleteListing c db).2 in
  listings db' = listings db ∨ listings db' = delete (Context.param c) (listings db).
Proof.
  cbv zeta. unfold MarketplaceController.deleteListing, Prisma.deleteListing. mrun.
  destruct (listings db !! Context.param c) as [l|] eqn:Hl; cbn; [|by left].
  case_decide; cbn; [by left|].
  destruct (Prisma.offersOf db (Context.param c)); cbn; [|by left].
  destruct (Prisma.messagesOf db (Context.param c)); cbn; [|by left].
  rewrite Hl. cbn. by right.
Qed.

Lemma handleListingApproved_sellers_kept (listingId : string) (env : Env) :
  preserves sellers_kept (MarketplaceController.handleListingApproved listingId env).
Proof. unfold MarketplaceController.handleListingApproved. preserve_steps. Qed.

Lemma handleEvent_sellers_kept (type listingId : string) (env : Env) :
  preserves sellers_kept (MarketplacePlugin.handleEvent type listingId env).
Proof.
  unfold MarketplacePlugin.handleEvent, MarketplaceController.handlePaymentCompleted.
  preserve_steps.
Qed.

(** Every route but [DELETE /listings/:id] keeps the stored listings and their
    sellers. *)
Lemma request_sellers_kept (config : MarketplaceConfig.t) (r : MarketplacePlugin.Route)
    (c : Context.t) (env : Env) (db : Database) :
  r ≠ MarketplacePlugin.DELETE_listings_id →
  sellers_kept db (MarketplacePlugin.request config r c env db).2.
Proof.
  intros Hr. unfold MarketplacePlugin.request. case_decide; [|reflexivity].
  destruct r; cbn [MarketplacePlugin.handler]; try done.
  all: try (case_match; [reflexivity|]).
  all: try (apply (preserves_try_catch sellers_kept); by preserve_steps).
  pose proof (preserves_run sellers_kept _ db
                (handleListingApproved_sellers_kept (Context.param c) env)) as Hk.
  by destruct (MarketplaceController.handleListingApproved _ env db) as [[u|e] db'].
Qed.

(** One input: a stored listing is either removed or keeps its seller. *)
Lemma step_seller (config : MarketplaceConfig.t) (i : MarketplacePlugin.Input) (env : Env)
    (db : Database) (id s : string) :
  listingSeller db id = Some s →
  listingSeller (MarketplacePlugin.step config i env db) id = Some s
  ∨ listings (MarketplacePlugin.step config i env db) !! id = None.
Proof.
  intros Hs. destruct i as [r c | type listingId]; cbn [MarketplacePlugin.step].
  - destruct (decide (r = MarketplacePlugin.DELETE_listings_id)) as [->|Hr];
      [|left; by apply request_sellers_kept].
    unfold MarketplacePlugin.request. case_decide; [|by left].
    cbn [MarketplacePlugin.handler]. case_match; [by left|].
    unfold listingSeller in *.
    destruct (deleteListing_listings c db) as [-> | ->]; [by left|].
    rewrite lookup_delete. case_decide; [by right | by left].
  - left.
    exact (preserves_run sellers_kept _ db
             (handleEvent_sellers_kept type listingId env) id s Hs).
Qed.

(** C9.  Along any sequence of requests and events, for as long as a listing
    stays stored it has the seller it had at the start. *)
Theorem sellerId_never_changes (config : MarketplaceConfig.t)
    (trace : list (MarketplacePlugin.Input * Env)) (db : Database) (id s : string) :
  listingSeller db id = Some s →
  Forall (λ d, is_Some (listings d !! id)) (MarketplacePlugin.run config trace db) →
  Forall (λ d, listingSeller d id = Some s) (MarketplacePlugin.run config trace db).
Proof.
  revert db. induction trace as [|[i env] trace IH]; intros db Hs Hstored; cbn in *.
  - by repeat constructor.
  - apply Forall_cons in Hstored as [_ Hstored].
    constructor; [done|]. apply IH; [|done].
    destruct (step_seller config i env db id s Hs) as [Hkept | Hgone]; [done|].
    destruct trace as [|[i' env'] trace]; cbn in Hstored;
      apply Forall_cons in Hstored as [[l Hl] _]; congruence.
Qed.

(** The seller edits the listing with a body that names another seller, an offer
    comes in, the seller accepts under a wrong id, and a payment is notified. *)
Lemma sellerId_never_changes_witness :
  let trace :=
    [ (MarketplacePlugin.Http MarketplacePlugin.PUT_listings_id
         (Context.mk Sample.seller "L1"
            {[ "sellerId" := JStr "B1"; "title" := JStr "Red bike" ]} Sample.noQuery),
       mkEnv "" 10);
      (MarketplacePlugin.Http MarketplacePlugin.POST_listings_offers
         (Context.mk Sample.buyer1 "L1" (Sample.offerBody 100) Sample.noQuery),
       mkEnv "O1" 11);
      (MarketplacePlugin.Http MarketplacePlugin.PUT_offers_id
         (Context.mk Sample.seller "L1" Sample.acceptBody Sample.noQuery),
       mkEnv "" 12);
      (MarketplacePlugin.Event "payment.completed" "L1", mkEnv "" 13) ] in
  Forall (λ d, listingSeller d "L1" = Some "S")
    (MarketplacePlugin.run MarketplaceConfig.defaults trace
       (Sample.store ListingStatus.AVAILABLE)).
Proof.
  apply (sellerId_never_changes MarketplaceConfig.defaults _
           (Sample.store ListingStatus.AVAILABLE) "L1" "S").
  - reflexivity.
  - repeat (constructor; [eexists; reflexivity|]). constructor.
Defined.

(** * Further properties *)

(** ** What each storage operation returns and leaves behind *)

Lemma Database_eta (db : Database) :
  mkDatabase (listings db) (offers db) (messages db) = db.
Proof. by destruct db. Qed.

Lemma alter_absent {A} (f : A → A) (m : gmap string A) (i : string) :
  m !! i = None → alter f i m = m.
Proof.
  intros Hi. apply map_eq. intros j. rewrite lookup_alter.
  case_decide; [subst; by rewrite Hi | done].
Qed.

Lemma createListing_result (data : CreateListingInput.t) (sellerId : string) (env : Env)
    (db : Database) :
  Prisma.createListing data sellerId env db =
  match listings db !! uuid env with
  | Some _ =>
      (Threw (DatabaseError "Unique constraint failed on MarketplaceListing.id"), db)
  | None =>
      (Returned (Some (ListingResult.mk (newListing data sellerId env)
                         (Prisma.offersOf db (uuid env)) (Prisma.messagesOf db (uuid env)))),
       mkDatabase (<[uuid env := newListing data sellerId env]> (listings db))
         (offers db) (messages db))
  end.
Proof.
  unfold Prisma.createListing. mrun.
  destruct (listings db !! uuid env); cbn; [done|].
  by rewrite lookup_insert_eq.
Qed.

Lemma updateListing_result (id : string) (data : UpdateListingInput.t) (env : Env)
    (db : Database) :
  Prisma.updateListing id data env db =
  match listings db !! id with
  | None => (Threw (Error "Failed to update listing"), db)
  | Some l =>
      if decide (0 < Prisma.listingClauses data)%nat
      then (Returned (ListingResult.mk (Prisma.setListing data (now env) l)
                        (Prisma.offersOf db id) (Prisma.messagesOf db id)),
            mkDatabase (<[id := Prisma.setListing data (now env) l]> (listings db))
              (offers db) (messages db))
      else (Returned (ListingResult.mk l (Prisma.offersOf db id) (Prisma.messagesOf db id)),
            db)
  end.
Proof.
  unfold Prisma.updateListing. mrun.
  destruct (listings db !! id) as [l|] eqn:Hl; case_decide; cbn.
  - by rewrite lookup_alter_eq, Hl, (alter_as_insert _ _ _ l).
  - by rewrite Hl.
  - by rewrite lookup_alter_eq, Hl, alter_absent, Database_eta.
  - by rewrite Hl.
Qed.

Lemma deleteListing_result (id : string) (db : Database) :
  Prisma.deleteListing id db =
  match Prisma.offersOf db id, Prisma.messagesOf db id, listings db !! id with
  | [], [], Some l =>
      (Returned l, mkDatabase (delete id (listings db)) (offers db) (messages db))
  | [], [], None => (Threw (Error "Listing not found"), db)
  | _, _, _ => (Threw (DatabaseError "Foreign key constraint failed on listingId"), db)
  end.
Proof.
  unfold Prisma.deleteListing. mrun.
  destruct (Prisma.offersOf db id), (Prisma.messagesOf db id), (listings db !! id); done.
Qed.

Lemma createOffer_result (data : CreateOfferInput.t) (listingId buyerId : string) (env : Env)
    (db : Database) :
  Prisma.createOffer data listingId buyerId env db =
  match offers db !! uuid env, listings db !! listingId with
  | Some _, _ => (Threw (DatabaseError "Unique constraint failed on ListingOffer.id"), db)
  | None, None => (Threw (DatabaseError "Foreign key constraint failed on listingId"), db)
  | None, Some _ =>
      (Returned (newOffer data listingId buyerId env),
       mkDatabase (listings db)
         (<[uuid env := newOffer data listingId buyerId env]> (offers db)) (messages db))
  end.
Proof.
  unfold Prisma.createOffer. mrun.
  destruct (offers db !! uuid env), (listings db !! listingId); done.
Qed.

Lemma updateOffer_result (id : string) (data : UpdateOfferInput.t) (env : Env)
    (db : Database) :
  Prisma.updateOffer id data env db =
  if decide (Prisma.offerClauses data = 0)%nat
  then (Threw (TypeError "Expected `join([])` to be called with an array of multiple elements, but got an empty array"), db)
  else match offers db !! id with
       | None => (Threw (Error "Failed to update offer"), db)
       | Some o =>
           (Returned (Prisma.setOffer data (now env) o),
            mkDatabase (listings db) (<[id := Prisma.setOffer data (now env) o]> (offers db))
              (messages db))
       end.
Proof.
  unfold Prisma.updateOffer. case_decide; [done|]. mrun.
  by destruct (offers db !! id).
Qed.

Lemma createMessage_result (data : CreateMessageInput.t) (listingId senderId : string)
    (env : Env) (db : Database) :
  Prisma.createMessage data listingId senderId env db =
  match messages db !! uuid env, listings db !! listingId with
  | Some _, _ => (Threw (DatabaseError "Unique constraint failed on ListingMessage.id"), db)
  | None, None => (Threw (DatabaseError "Foreign key constraint failed on listingId"), db)
  | None, Some _ =>
      (Returned (newMessage data listingId senderId env),
       mkDatabase (listings db) (offers db)
         (<[uuid env := newMessage data listingId senderId env]> (messages db)))
  end.
Proof.
  unfold Prisma.createMessage. mrun.
  destruct (messages db !! uuid env), (listings db !! listingId); done.
Qed.

(** ** Every write of the plugin is one of seven storage calls

    A reflexive and transitive relation that the storage operations respect, on
    the data the schemas let through and with the statuses the handlers write,
    is respected by every request, by every event, and along every run. *)
Section PluginPreserves.
Context (R : relation Database) `{!PreOrder R}.
Hypothesis R_createListing : ∀ body data sellerId env,
  Zod.listingSchema body = Some data →
  preserves R (Prisma.createListing data sellerId env).
Hypothesis R_updateListing : ∀ body data id env,
  Zod.listingSchema_partial body = Some data →
  preserves R (Prisma.updateListing id data env).
Hypothesis R_setStatus : ∀ id st env,
  writtenStatus st = true →
  preserves R (Prisma.updateListing id (statusOnly st) env).
Hypothesis R_deleteListing : ∀ id, preserves R (Prisma.deleteListing id).
Hypothesis R_createOffer : ∀ body data listingId buyerId env,
  Zod.offerSchema body = Some data →
  preserves R (Prisma.createOffer data listingId buyerId env).
Hypothesis R_updateOffer : ∀ body data id env,
  Zod.offerSchema_partial body = Some data →
  preserves R (Prisma.updateOffer id data env).
Hypothesis R_createMessage : ∀ body data listingId senderId env,
  Zod.messageSchema body = Some data →
  preserves R (Prisma.createMessage data listingId senderId env).

Local Hint Extern 1 (writtenStatus _ = true) => reflexivity : preserves.

Lemma handleListingApproved_preserves (listingId : string) (env : Env) :
  preserves R (MarketplaceController.handleListingApproved listingId env).
Proof.
  unfold MarketplaceController.handleListingApproved.
  change (UpdateListingInput.mk None None None None None None (Some ?st))
    with (statusOnly st).
  preserve_steps.
Qed.

Lemma handleEvent_preserves (type listingId : string) (env : Env) :
  preserves R (MarketplacePlugin.handleEvent type listingId env).
Proof.
  unfold MarketplacePlugin.handleEvent, MarketplaceController.handlePaymentCompleted.
  change (UpdateListingInput.mk None None None None None None (Some ?st))
    with (statusOnly st).
  preserve_steps.
Qed.

Lemma request_preserves (config : MarketplaceConfig.t) (r : MarketplacePlugin.Route)
    (c : Context.t) (env : Env) (db : Database) :
  R db (MarketplacePlugin.request config r c env db).2.
Proof.
  unfold MarketplacePlugin.request. case_decide; [|reflexivity].
  destruct r; cbn [MarketplacePlugin.handler].
  all: try (case_match; [reflexivity|]).
  all: try (apply (preserves_try_catch R);
            change (UpdateListingInput.mk None None None None None None (Some ?st))
              with (statusOnly st);
            by preserve_steps).
  pose proof (preserves_run R _ db
                (handleListingApproved_preserves (Context.param c) env)) as Hk.
  by destruct (MarketplaceController.handleListingApproved _ env db) as [[u|e] db'].
Qed.

Lemma step_preserves (config : MarketplaceConfig.t) (i : MarketplacePlugin.Input)
    (env : Env) (db : Database) :
  R db (MarketplacePlugin.step config i env db).
Proof.
  destruct i as [r c | type listingId]; cbn [MarketplacePlugin.step].
  - apply request_preserves.
  - apply (preserves_run R), handleEvent_preserves.
Qed.

Lemma run_preserves (config : MarketplaceConfig.t)
    (trace : list (MarketplacePlugin.Input * Env)) (db : Database) :
  Forall (R db) (MarketplacePlugin.run config trace db).
Proof.
  revert db. induction trace as [|[i env] trace IH]; intros db; cbn.
  - by repeat constructor.
  - constructor; [reflexivity|].
    eapply Forall_impl; [apply IH|]. intros d Hd. cbn in Hd.
    etrans; [apply step_preserves | exact Hd].
Qed.

End PluginPreserves.

#[global] Instance keeps_preorder (I : Database → Prop) : PreOrder (keeps I).
Proof.
  split; [intros db H; exact H | intros db1 db2 db3 H12 H23 H1; apply H23, H12, H1].
Qed.

Lemma run_invariant (I : Database → Prop) (config : MarketplaceConfig.t)
    (trace : list (MarketplacePlugin.Input * Env)) (db : Database) :
  Forall (keeps I db) (MarketplacePlugin.run config trace db) →
  I db → Forall I (MarketplacePlugin.run config trace db).
Proof. intros Hk HI. eapply Forall_impl; [exact Hk|]. intros d Hd. by apply Hd. Qed.

(** ** Invariants along every run *)

(** open a storage operation into its possible results *)
Ltac storage_cases :=
  constructor; intros db;
  rewrite ?createListing_result, ?updateListing_result, ?deleteListing_result,
    ?createOffer_result, ?updateOffer_result, ?createMessage_result;
  repeat case_match; cbn [fst snd]; try reflexivity.

Lemma wf_db_storage :
  (∀ data sellerId env, preserves (keeps wf_db) (Prisma.createListing data sellerId env))
  ∧ (∀ id data env, preserves (keeps wf_db) (Prisma.updateListing id data env))
  ∧ (∀ id, preserves (keeps wf_db) (Prisma.deleteListing id))
  ∧ (∀ data listingId buyerId env,
       preserves (keeps wf_db) (Prisma.createOffer data listingId buyerId env))
  ∧ (∀ id data env, preserves (keeps wf_db) (Prisma.updateOffer id data env))
  ∧ (∀ data listingId senderId env,
       preserves (keeps wf_db) (Prisma.createMessage data listingId senderId env)).
Proof.
  split_and!; intros; storage_cases.
  all: intros (Hl & Ho & Hm); split_and!; cbn; try done.
  all: try (apply map_Forall_insert_2; [|done]).
  all: try by apply map_Forall_delete.
  all: try reflexivity.
  - cbn. by apply (map_Forall_lookup_1 _ _ _ _ Hl).
  - cbn. by apply (map_Forall_lookup_1 _ _ _ _ Ho).
Qed.

(** X1.  Every listing, offer and message is stored under its own id, before and
    after every request and event. *)
Theorem wf_db_invariant (config : MarketplaceConfig.t)
    (trace : list (MarketplacePlugin.Input * Env)) (db : Database) :
  wf_db db → Forall wf_db (MarketplacePlugin.run config trace db).
Proof.
  intros Hwf. apply run_invariant; [|done].
  destruct wf_db_storage as (H1 & H2 & H3 & H4 & H5 & H6).
  apply run_preserves; [apply _ | auto..].
Qed.

Lemma offersOf_nil (db : Database) (id k : string) (o : ListingOffer.t) :
  Prisma.offersOf db id = [] → offers db !! k = Some o → ListingOffer.listingId o ≠ id.
Proof.
  unfold Prisma.offersOf. intros Hnil Ho Hid.
  assert (Hin : o ∈ filter (λ o, ListingOffer.listingId o = id) (map_to_list (offers db)).*2).
  { apply list_elem_of_filter. split; [done|].
    apply list_elem_of_fmap. exists (k, o). split; [done|].
    by apply elem_of_map_to_list. }
  rewrite Hnil in Hin. by apply not_elem_of_nil in Hin.
Qed.

Lemma messagesOf_nil (db : Database) (id k : string) (m : ListingMessage.t) :
  Prisma.messagesOf db id = [] → messages db !! k = Some m →
  ListingMessage.listingId m ≠ id.
Proof.
  unfold Prisma.messagesOf. intros Hnil Hm Hid.
  assert (Hin : m ∈ filter (λ m, ListingMessage.listingId m = id)
                      (map_to_list (messages db)).*2).
  { apply list_elem_of_filter. split; [done|].
    apply list_elem_of_fmap. exists (k, m). split; [done|].
    by apply elem_of_map_to_list. }
  rewrite Hnil in Hin. by apply not_elem_of_nil in Hin.
Qed.

Lemma refs_ok_storage :
  (∀ data sellerId env, preserves (keeps refs_ok) (Prisma.createListing data sellerId env))
  ∧ (∀ id data env, preserves (keeps refs_ok) (Prisma.updateListing id data env))
  ∧ (∀ id, preserves (keeps refs_ok) (Prisma.deleteListing id))
  ∧ (∀ data listingId buyerId env,
       preserves (keeps refs_ok) (Prisma.createOffer data listingId buyerId env))
  ∧ (∀ id data env, preserves (keeps refs_ok) (Prisma.updateOffer id data env))
  ∧ (∀ data listingId senderId env,
       preserves (keeps refs_ok) (Prisma.createMessage data listingId senderId env)).
Proof.
  split_and!; intros; storage_cases.
  all: intros (Ho & Hm); split; cbn.
  all: try (intros k x Hx; cbn; apply lookup_insert_is_Some'; right;
            first [ by apply (Ho k x) | by apply (Hm k x) ]).
  - intros k x Hx. cbn. rewrite lookup_delete_ne; [by apply (Ho k x)|].
    intros Heq. by eapply offersOf_nil.
  - intros k x Hx. cbn. rewrite lookup_delete_ne; [by apply (Hm k x)|].
    intros Heq. by eapply messagesOf_nil.
  - apply map_Forall_insert_2; [by cbn|done].
  - done.
  - apply map_Forall_insert_2; [|done]. cbn. by eapply Ho.
  - done.
  - done.
  - apply map_Forall_insert_2; [by cbn|done].
Qed.

(** X2.  Every offer and every message belongs to a stored listing, before and
    after every request and event: a listing that still has offers or messages
    is not deleted. *)
Theorem refs_ok_invariant (config : MarketplaceConfig.t)
    (trace : list (MarketplacePlugin.Input * Env)) (db : Database) :
  refs_ok db → Forall refs_ok (MarketplacePlugin.run config trace db).
Proof.
  intros Hok. apply run_invariant; [|done].
  destruct refs_ok_storage as (H1 & H2 & H3 & H4 & H5 & H6).
  apply run_preserves; [apply _ | auto..].
Qed.

#[global] Instance offers_kept_preorder : PreOrder offers_kept.
Proof.
  split.
  - intros db k o Ho. by exists o.
  - intros db1 db2 db3 H12 H23 k o Ho.
    destruct (H12 k o Ho) as (o2 & Ho2 & ? & ? & ? & ?).
    destruct (H23 k o2 Ho2) as (o3 & Ho3 & ? & ? & ? & ?).
    exists o3. split_and!; [done | congruence..].
Qed.

#[global] Instance messages_kept_preorder : PreOrder messages_kept.
Proof.
  split; [intros db | intros db1 db2 db3]; unfold messages_kept;
    [reflexivity | apply transitivity].
Qed.

Lemma offers_kept_storage :
  (∀ data sellerId env, preserves offers_kept (Prisma.createListing data sellerId env))
  ∧ (∀ id data env, preserves offers_kept (Prisma.updateListing id data env))
  ∧ (∀ id, preserves offers_kept (Prisma.deleteListing id))
  ∧ (∀ data listingId buyerId env,
       preserves offers_kept (Prisma.createOffer data listingId buyerId env))
  ∧ (∀ id data env, UpdateOfferInput.status data = None →
       preserves offers_kept (Prisma.updateOffer id data env))
  ∧ (∀ data listingId senderId env,
       preserves offers_kept (Prisma.createMessage data listingId senderId env)).
Proof.
  split_and!; intros; storage_cases.
  all: intros k o Ho; cbn; try by exists o.
  - exists o. split_and!; try done. rewrite lookup_insert_ne; [done|]. congruence.
  - destruct (decide (id = k)) as [->|Hne].
    + rewrite lookup_insert_eq. eexists. split; [done|].
      assert (o = t) as -> by congruence.
      cbn. match goal with Hs : UpdateOfferInput.status _ = None |- _ => rewrite Hs end.
      done.
    + exists o. by rewrite lookup_insert_ne.
Qed.

(** X3.  Along any run, an offer once stored stays stored, on the same listing,
    by the same buyer and in the same status: no request accepts, rejects,
    cancels or removes an offer. *)
Theorem offers_never_change_status (config : MarketplaceConfig.t)
    (trace : list (MarketplacePlugin.Input * Env)) (db : Database) :
  Forall (offers_kept db) (MarketplacePlugin.run config trace db).
Proof.
  destruct offers_kept_storage as (H1 & H2 & H3 & H4 & H5 & H6).
  apply run_preserves; [apply _ | eauto using offerSchema_partial_status..].
Qed.

Lemma all_offers_pending_storage :
  (∀ data sellerId env,
     preserves (keeps all_offers_pending) (Prisma.createListing data sellerId env))
  ∧ (∀ id data env, preserves (keeps all_offers_pending) (Prisma.updateListing id data env))
  ∧ (∀ id, preserves (keeps all_offers_pending) (Prisma.deleteListing id))
  ∧ (∀ data listingId buyerId env,
       preserves (keeps all_offers_pending) (Prisma.createOffer data listingId buyerId env))
  ∧ (∀ id data env, UpdateOfferInput.status data = None →
       preserves (keeps all_offers_pending) (Prisma.updateOffer id data env))
  ∧ (∀ data listingId senderId env,
       preserves (keeps all_offers_pending)
         (Prisma.createMessage data listingId senderId env)).
Proof.
  split_and!; intros; storage_cases.
  all: intros Hp; unfold all_offers_pending; cbn; try done.
  - by apply map_Forall_insert_2.
  - apply map_Forall_insert_2; [|done]. cbn.
    match goal with Hs : UpdateOfferInput.status _ = None |- _ => rewrite Hs end.
    cbn. by eapply (map_Forall_lookup_1 _ _ _ _ Hp).
Qed.

Lemma run_all_offers_pending (config : MarketplaceConfig.t)
    (trace : list (MarketplacePlugin.Input * Env)) (db : Database) :
  all_offers_pending db →
  Forall all_offers_pending (MarketplacePlugin.run config trace db).
Proof.
  intros Hp. apply run_invariant; [|done].
  destruct all_offers_pending_storage as (H1 & H2 & H3 & H4 & H5 & H6).
  apply run_preserves; [apply _ | eauto using offerSchema_partial_status..].
Qed.

Lemma no_draft_or_cancelled_storage :
  (∀ data sellerId env,
     preserves (keeps no_draft_or_cancelled) (Prisma.createListing data sellerId env))
  ∧ (∀ id data env, UpdateListingInput.status data = None →
       preserves (keeps no_draft_or_cancelled) (Prisma.updateListing id data env))
  ∧ (∀ id st env, writtenStatus st = true →
       preserves (keeps no_draft_or_cancelled) (Prisma.updateListing id (statusOnly st) env))
  ∧ (∀ id, preserves (keeps no_draft_or_cancelled) (Prisma.deleteListing id))
  ∧ (∀ data listingId buyerId env,
       preserves (keeps no_draft_or_cancelled)
         (Prisma.createOffer data listingId buyerId env))
  ∧ (∀ id data env, preserves (keeps no_draft_or_cancelled) (Prisma.updateOffer id data env))
  ∧ (∀ data listingId senderId env,
       preserves (keeps no_draft_or_cancelled)
         (Prisma.createMessage data listingId senderId env)).
Proof.
  split_and!; intros; storage_cases.
  all: intros Hp; unfold no_draft_or_cancelled; cbn; try done.
  - by apply map_Forall_insert_2.
  - apply map_Forall_insert_2; [|done]. cbn.
    match goal with Hs : UpdateListingInput.status _ = None |- _ => rewrite Hs end.
    cbn. by eapply (map_Forall_lookup_1 _ _ _ _ Hp).
  - apply map_Forall_insert_2; [|done]. cbn. by destruct st.
  - by apply map_Forall_delete.
Qed.

(** X4.  The plugin writes four listing statuses only (PENDING_APPROVAL on
    creation, then AVAILABLE, PENDING_PAYMENT, SOLD): when no stored listing is
    DRAFT or CANCELLED, none is after any sequence of requests and events. *)
Theorem listings_never_draft_or_cancelled (config : MarketplaceConfig.t)
    (trace : list (MarketplacePlugin.Input * Env)) (db : Database) :
  no_draft_or_cancelled db →
  Forall no_draft_or_cancelled (MarketplacePlugin.run config trace db).
Proof.
  intros Hp. apply run_invariant; [|done].
  destruct no_draft_or_cancelled_storage as (H1 & H2 & H3 & H4 & H5 & H6 & H7).
  apply run_preserves; [apply _ | eauto using listingSchema_partial_status..].
Qed.

Lemma messages_kept_storage :
  (∀ data sellerId env, preserves messages_kept (Prisma.createListing data sellerId env))
  ∧ (∀ id data env, preserves messages_kept (Prisma.updateListing id data env))
  ∧ (∀ id, preserves messages_kept (Prisma.deleteListing id))
  ∧ (∀ data listingId buyerId env,
       preserves messages_kept (Prisma.createOffer data listingId buyerId env))
  ∧ (∀ id data env, preserves messages_kept (Prisma.updateOffer id data env))
  ∧ (∀ data listingId senderId env,
       preserves messages_kept (Prisma.createMessage data listingId senderId env)).
Proof.
  split_and!; intros; storage_cases.
  all: unfold messages_kept; cbn; try reflexivity.
  by apply insert_subseteq.
Qed.

(** X5.  Messages are immutable: along any run, a message once stored stays
    stored exactly as it was. *)
Theorem messages_are_immutable (config : MarketplaceConfig.t)
    (trace : list (MarketplacePlugin.Input * Env)) (db : Database) (k : string)
    (m : ListingMessage.t) :
  messages db !! k = Some m →
  Forall (λ d, messages d !! k = Some m) (MarketplacePlugin.run config trace db).
Proof.
  intros Hm.
  destruct messages_kept_storage as (H1 & H2 & H3 & H4 & H5 & H6).
  eapply Forall_impl; [apply (run_preserves messages_kept); auto|].
  intros d Hd. cbn in Hd. by eapply lookup_weaken.
Qed.

(** ** What the schemas let through *)

Lemma string__inv (min : nat) (v : jval) (s : string) :
  Zod.string_ min v = Some s → v = JStr s ∧ (min ≤ String.length s)%nat.
Proof. destruct v; cbn; try done. case_decide; [|done]. by intros [= ->]. Qed.

Lemma number_inv (min : Z) (v : jval) (n : Z) :
  Zod.number min v = Some n → v = JNum n ∧ min ≤ n.
Proof. destruct v; cbn; try done. case_decide; [|done]. by intros [= ->]. Qed.

Lemma array_string_inv (min : nat) (v : jval) (l : list string) :
  Zod.array_string min v = Some l → (min ≤ length l)%nat.
Proof.
  destruct v; cbn; try done. intros H.
  apply bind_Some in H as (l' & _ & H). case_decide; [|done]. by injection H as <-.
Qed.

Lemma required_inv {A} (p : jval → option A) (v : option jval) (a : A) :
  Zod.required p v = Some a → ∃ x, v = Some x ∧ p x = Some a.
Proof. destruct v as [x|]; cbn; [by exists x | done]. Qed.

Lemma optional_inv {A} (p : jval → option A) (v : option jval) (a : A) :
  Zod.optional p v = Some (Some a) → ∃ x, v = Some x ∧ p x = Some a.
Proof.
  destruct v as [x|]; cbn; [|done]. destruct (p x) eqn:Hp; cbn; [|done].
  intros [= <-]. by exists x.
Qed.

Lemma listingSchema_inv (body : gmap string jval) (d : CreateListingInput.t) :
  Zod.listingSchema body = Some d →
  (1 ≤ String.length (CreateListingInput.title d))%nat
  ∧ (1 ≤ String.length (CreateListingInput.description d))%nat
  ∧ 0 ≤ CreateListingInput.price d
  ∧ (1 ≤ length (CreateListingInput.images d))%nat.
Proof.
  unfold Zod.listingSchema. intros H.
  apply bind_Some in H as (t & Ht & H). apply bind_Some in H as (ds & Hd & H).
  apply bind_Some in H as (p & Hp & H). apply bind_Some in H as (c & Hc & H).
  apply bind_Some in H as (i & Hi & H). apply bind_Some in H as (g & Hg & H).
  injection H as <-. cbn.
  apply required_inv in Ht as (? & _ & [_ Ht]%string__inv).
  apply required_inv in Hd as (? & _ & [_ Hd]%string__inv).
  apply required_inv in Hp as (? & _ & [_ Hp]%number_inv).
  apply required_inv in Hi as (? & _ & Hi%array_string_inv).
  done.
Qed.

Lemma listingSchema_partial_inv (body : gmap string jval) (d : UpdateListingInput.t) :
  Zod.listingSchema_partial body = Some d →
  (∀ t, UpdateListingInput.title d = Some t → (1 ≤ String.length t)%nat)
  ∧ (∀ t, UpdateListingInput.description d = Some t → (1 ≤ String.length t)%nat)
  ∧ (∀ p, UpdateListingInput.price d = Some p → 0 ≤ p)
  ∧ (∀ i, UpdateListingInput.images d = Some i → (1 ≤ length i)%nat)
  ∧ UpdateListingInput.status d = None.
Proof.
  unfold Zod.listingSchema_partial. intros H.
  apply bind_Some in H as (t & Ht & H). apply bind_Some in H as (ds & Hd & H).
  apply bind_Some in H as (p & Hp & H). apply bind_Some in H as (c & Hc & H).
  apply bind_Some in H as (i & Hi & H). apply bind_Some in H as (g & Hg & H).
  injection H as <-. cbn. split_and!; [intros x ->..|done].
  - by apply optional_inv in Ht as (? & _ & [_ Ht]%string__inv).
  - by apply optional_inv in Hd as (? & _ & [_ Hd]%string__inv).
  - by apply optional_inv in Hp as (? & _ & [_ Hp]%number_inv).
  - by apply optional_inv in Hi as (? & _ & Hi%array_string_inv).
Qed.

Lemma offerSchema_inv (body : gmap string jval) (d : CreateOfferInput.t) :
  Zod.offerSchema body = Some d → 0 ≤ CreateOfferInput.amount d.
Proof.
  unfold Zod.offerSchema. intros H.
  apply bind_Some in H as (a & Ha & H). apply bind_Some in H as (m & Hm & H).
  injection H as <-. cbn.
  by apply required_inv in Ha as (? & _ & [_ Ha]%number_inv).
Qed.

Lemma offerSchema_partial_inv (body : gmap string jval) (d : UpdateOfferInput.t) :
  Zod.offerSchema_partial body = Some d →
  ∀ a, UpdateOfferInput.amount d = Some a → 0 ≤ a.
Proof.
  unfold Zod.offerSchema_partial. intros H.
  apply bind_Some in H as (a & Ha & H). apply bind_Some in H as (m & Hm & H).
  injection H as <-. cbn. intros x ->.
  by apply optional_inv in Ha as (? & _ & [_ Ha]%number_inv).
Qed.

Lemma messageSchema_inv (body : gmap string jval) (d : CreateMessageInput.t) :
  Zod.messageSchema body = Some d → (1 ≤ String.length (CreateMessageInput.content d))%nat.
Proof.
  unfold Zod.messageSchema. intros H.
  apply bind_Some in H as (a & Ha & H). injection H as <-. cbn.
  by apply required_inv in Ha as (? & _ & [_ Ha]%string__inv).
Qed.

Lemma valid_fields_storage :
  (∀ body data sellerId env, Zod.listingSchema body = Some data →
     preserves (keeps valid_fields) (Prisma.createListing data sellerId env))
  ∧ (∀ body data id env, Zod.listingSchema_partial body = Some data →
       preserves (keeps valid_fields) (Prisma.updateListing id data env))
  ∧ (∀ id st env,
       preserves (keeps valid_fields) (Prisma.updateListing id (statusOnly st) env))
  ∧ (∀ id, preserves (keeps valid_fields) (Prisma.deleteListing id))
  ∧ (∀ body data listingId buyerId env, Zod.offerSchema body = Some data →
       preserves (keeps valid_fields) (Prisma.createOffer data listingId buyerId env))
  ∧ (∀ body data id env, Zod.offerSchema_partial body = Some data →
       preserves (keeps valid_fields) (Prisma.updateOffer id data env))
  ∧ (∀ body data listingId senderId env, Zod.messageSchema body = Some data →
       preserves (keeps valid_fields) (Prisma.createMessage data listingId senderId env)).
Proof.
  split_and!; intros; storage_cases.
  all: intros (Hl & Ho & Hm); split_and!; cbn; try done.
  - apply map_Forall_insert_2; [|done]. cbn. by eapply listingSchema_inv.
  - apply map_Forall_insert_2; [|done]. cbn.
    match goal with Hs : Zod.listingSchema_partial _ = Some _ |- _ =>
      apply listingSchema_partial_inv in Hs as (Ht & Hd & Hp & Hi & _) end.
    match goal with Hx : listings db !! _ = Some ?l |- _ =>
      pose proof (map_Forall_lookup_1 _ _ _ _ Hl Hx) as (? & ? & ? & ?) end.
    cbn in *.
    split_and!.
    + destruct (UpdateListingInput.title data); cbn; auto.
    + destruct (UpdateListingInput.description data); cbn; auto.
    + destruct (UpdateListingInput.price data); cbn; auto.
    + destruct (UpdateListingInput.images data); cbn; auto.
  - apply map_Forall_insert_2; [|done]. cbn.
    match goal with Hx : listings db !! _ = Some ?l |- _ =>
      exact (map_Forall_lookup_1 _ _ _ _ Hl Hx) end.
  - by apply map_Forall_delete.
  - apply map_Forall_insert_2; [|done]. cbn. by eapply offerSchema_inv.
  - apply map_Forall_insert_2; [|done]. cbn.
    match goal with Hs : Zod.offerSchema_partial _ = Some _ |- _ =>
      pose proof (offerSchema_partial_inv _ _ Hs) as Ha end.
    match goal with Hx : offers db !! _ = Some ?o |- _ =>
      pose proof (map_Forall_lookup_1 _ _ _ _ Ho Hx) as Hold end.
    cbn in Hold. destruct (UpdateOfferInput.amount data); cbn; auto.
  - apply map_Forall_insert_2; [|done]. cbn. by eapply messageSchema_inv.
Qed.

(** X6.  What validation guarantees stays true of the stored data: when every
    listing has a non-empty title and description, a price of at least 0 and at
    least one image, every offer an amount of at least 0 and every message a
    non-empty content, the same holds after any sequence of requests and
    events. *)
Theorem valid_fields_invariant (config : MarketplaceConfig.t)
    (trace : list (MarketplacePlugin.Input * Env)) (db : Database) :
  valid_fields db → Forall valid_fields (MarketplacePlugin.run config trace db).
Proof.
  intros Hv. apply run_invariant; [|done].
  destruct valid_fields_storage as (H1 & H2 & H3 & H4 & H5 & H6 & H7).
  apply run_preserves; [apply _ | eauto..].
Qed.

(** ** Requests that fail *)

Ltac open_handler :=
  mrun;
  rewrite ?createListing_result, ?updateListing_result, ?deleteListing_result,
    ?createOffer_result, ?updateOffer_result, ?createMessage_result.

(** X7.  A request that is not answered with success changes nothing: on a
    database whose rows are stored under their ids, every route leaves the
    database exactly as it was unless it reports success. *)
Theorem failed_request_changes_nothing (config : MarketplaceConfig.t)
    (r : MarketplacePlugin.Route) (c : Context.t) (env : Env) (db : Database) :
  wf_db db →
  isSuccess (MarketplacePlugin.request config r c env db).1 = false →
  (MarketplacePlugin.request config r c env db).2 = db.
Proof.
  intros (Hwf & _ & _). unfold MarketplacePlugin.request. case_decide; [|done].
  destruct r; cbn [MarketplacePlugin.handler].
  all: try (case_match; [done|]).
  - done.
  - unfold MarketplaceController.createListing. open_handler.
    destruct (Zod.listingSchema (Context.json c)); cbn; [|done].
    rewrite createListing_result. by destruct (listings db !! uuid env).
  - unfold MarketplaceController.getListingById. open_handler.
    by destruct (listings db !! Context.param c).
  - unfold MarketplaceController.updateListing. open_handler.
    destruct (listings db !! Context.param c) as [l|] eqn:Hl; cbn; [|done].
    case_decide; cbn; [done|].
    destruct (Zod.listingSchema_partial (Context.json c)); cbn; [|done].
    rewrite updateListing_result, Hl. by case_decide.
  - unfold MarketplaceController.deleteListing. open_handler.
    destruct (listings db !! Context.param c) as [l|] eqn:Hl; cbn; [|done].
    case_decide; cbn; [done|].
    rewrite deleteListing_result, Hl.
    by destruct (Prisma.offersOf db (Context.param c)),
      (Prisma.messagesOf db (Context.param c)).
  - unfold MarketplaceController.createOffer. open_handler.
    destruct (listings db !! Context.param c) as [l|] eqn:Hl; cbn; [|done].
    case_decide; cbn; [done|]. case_decide; cbn; [done|].
    destruct (Zod.offerSchema (Context.json c)); cbn; [|done].
    rewrite createOffer_result, Hl. by destruct (offers db !! uuid env).
  - unfold MarketplaceController.updateOffer. open_handler.
    destruct (listings db !! Context.param c) as [l|] eqn:Hl; cbn; [|done].
    destruct (truthy _ && _); cbn; [done|].
    destruct (_ && _); cbn; [done|].
    destruct (Zod.offerSchema_partial (Context.json c)); cbn; [|done].
    rewrite updateOffer_result. case_decide; cbn; [done|].
    destruct (offers db !! Context.param c); cbn; [|done].
    destruct (strict_eq_string _ _); cbn; [|done].
    rewrite updateListing_result. cbn.
    rewrite (map_Forall_lookup_1 _ _ _ _ Hwf Hl), Hl. by case_decide.
  - unfold MarketplaceController.createMessage. open_handler.
    destruct (listings db !! Context.param c) as [l|] eqn:Hl; cbn; [|done].
    destruct (Zod.messageSchema (Context.json c)); cbn; [|done].
    rewrite createMessage_result, Hl. by destruct (messages db !! uuid env).
  - unfold MarketplaceController.handleListingApproved.
    rewrite bind_run, updateListing_result.
    destruct (listings db !! Context.param c); cbn; [|done]. by case_decide.
Qed.

(** ** Configuration *)

(** X8.  Of the configuration a request only reads the role lists and the
    auto-approval flag: two configurations that agree on those answer every
    request alike, whatever their [messaging] and [offers] feature flags and
    their four limits are. *)
Theorem request_ignores_flags_and_limits (config config' : MarketplaceConfig.t)
    (r : MarketplacePlugin.Route) (c : Context.t) (env : Env) (db : Database) :
  MarketplaceConfig.roles config = MarketplaceConfig.roles config' →
  MarketplaceConfig.autoApproval (MarketplaceConfig.features config)
    = MarketplaceConfig.autoApproval (MarketplaceConfig.features config') →
  MarketplacePlugin.request config r c env db
  = MarketplacePlugin.request config' r c env db.
Proof.
  intros Hroles Hauto.
  unfold MarketplacePlugin.request, MarketplacePlugin.getRoutes.
  rewrite Hauto. case_decide; [|done].
  destruct r; cbn [MarketplacePlugin.handler]; by rewrite ?Hroles.
Qed.

Lemma request_ignores_flags_and_limits_witness :
  MarketplacePlugin.request MarketplaceConfig.defaults
    MarketplacePlugin.POST_listings_messages
    (Scenario.context Scenario.guest "L1" Scenario.messageBody) (mkEnv "M2" 20) Scenario.db
  = MarketplacePlugin.request Scenario.configNoMessaging
      MarketplacePlugin.POST_listings_messages
      (Scenario.context Scenario.guest "L1" Scenario.messageBody) (mkEnv "M2" 20) Scenario.db.
Proof.
  apply (request_ignores_flags_and_limits MarketplaceConfig.defaults
           Scenario.configNoMessaging); reflexivity.
Defined.

(** ** updateListing in detail *)

Lemma listingSchema_partial_no_keys (body : gmap string jval) :
  (∀ k, k ∈ listingKeys → body !! k = None) →
  Zod.listingSchema_partial body = Some (UpdateListingInput.mk None None None None None None None).
Proof.
  intros Hk. unfold Zod.listingSchema_partial.
  rewrite !Hk by (unfold listingKeys; set_solver). reflexivity.
Qed.

(** X9.  A [PUT /listings/:id] by the seller whose body has none of the six
    listing keys succeeds, returns the listing as stored and writes nothing, not
    even [updatedAt]. *)
Theorem updateListing_without_keys (c : Context.t) (env : Env) (db : Database)
    (l : MarketplaceListing.t) :
  listings db !! Context.param c = Some l →
  MarketplaceListing.sellerId l = UserContext.id (Context.user c) →
  (∀ k, k ∈ listingKeys → Context.json c !! k = None) →
  MarketplaceController.updateListing c env db =
    (successResponse
       (PListing (Some (ListingResult.mk l (Prisma.offersOf db (Context.param c))
                          (Prisma.messagesOf db (Context.param c))))) 200,
     db).
Proof.
  intros Hl Hs Hk. unfold MarketplaceController.updateListing. open_handler.
  rewrite Hl. cbn. rewrite decide_False by (intros Hne; by apply Hne).
  rewrite (listingSchema_partial_no_keys _ Hk). cbn.
  by rewrite updateListing_result, Hl.
Qed.

(** X10.  [PUT /listings/:id] succeeds exactly when the listing is stored, the
    caller is its seller and the body passes the partial schema. *)
Theorem updateListing_succeeds_iff (c : Context.t) (env : Env) (db : Database) :
  isSuccess (MarketplaceController.updateListing c env db).1 = true
  ↔ ∃ l v, listings db !! Context.param c = Some l
           ∧ MarketplaceListing.sellerId l = UserContext.id (Context.user c)
           ∧ Zod.listingSchema_partial (Context.json c) = Some v.
Proof.
  unfold MarketplaceController.updateListing. open_handler.
  destruct (listings db !! Context.param c) as [l|] eqn:Hl; cbn;
    [|split; [done | by intros (? & ? & ? & _)]].
  case_decide as Hs; cbn.
  - split; [done|]. intros (l' & v & [= <-] & ? & _). done.
  - destruct (Zod.listingSchema_partial (Context.json c)) as [v|] eqn:Hv; cbn.
    + rewrite updateListing_result, Hl. split; [by exists l, v|]. by case_decide.
    + split; [done|]. by intros (? & ? & _ & _ & ?).
Qed.

(** X11.  Whatever its outcome, [PUT /listings/:id] leaves the offers, the
    messages and every other listing untouched, and of the listing addressed
    keeps the id, the seller, the status and the creation time. *)
Theorem updateListing_frame (c : Context.t) (env : Env) (db : Database) :
  let db' := (MarketplaceController.updateListing c env db).2 in
  offers db' = offers db
  ∧ messages db' = messages db
  ∧ (∀ j, j ≠ Context.param c → listings db' !! j = listings db !! j)
  ∧ (λ l, (MarketplaceListing.id l, MarketplaceListing.sellerId l,
           MarketplaceListing.status l, MarketplaceListing.createdAt l))
      <$> listings db' !! Context.param c
    = (λ l, (MarketplaceListing.id l, MarketplaceListing.sellerId l,
             MarketplaceListing.status l, MarketplaceListing.createdAt l))
      <$> listings db !! Context.param c.
Proof.
  cbv zeta. unfold MarketplaceController.updateListing. open_handler.
  destruct (listings db !! Context.param c) as [l|] eqn:Hl; cbn; [|by rewrite Hl].
  case_decide; cbn; [by rewrite Hl|].
  destruct (Zod.listingSchema_partial (Context.json c)) as [v|] eqn:Hv; cbn;
    [|by rewrite Hl].
  rewrite updateListing_result, Hl.
  case_decide; cbn; [|by rewrite Hl].
  split_and!; try done.
  - intros j Hj. by rewrite lookup_insert_ne.
  - rewrite lookup_insert_eq. cbn.
    by rewrite (listingSchema_partial_status _ _ Hv).
Qed.

(** ** Creation and deletion in detail *)

(** X12.  A listing that [POST /listings] creates belongs to the caller, whatever
    the body says: it is stored under the fresh id with the caller as seller, it
    is created and updated at the current time, and nothing else in the database
    changes. *)
Theorem createListing_seller_is_caller (config : MarketplaceConfig.t) (c : Context.t)
    (env : Env) (db db' : Database) (p : Payload) (st : nat) :
  MarketplacePlugin.request config MarketplacePlugin.POST_listings c env db
    = (successResponse p st, db') →
  listings db !! uuid env = None
  ∧ (∃ l, listings db' = <[uuid env := l]> (listings db)
          ∧ MarketplaceListing.id l = uuid env
          ∧ MarketplaceListing.sellerId l = UserContext.id (Context.user c)
          ∧ MarketplaceListing.createdAt l = now env
          ∧ MarketplaceListing.updatedAt l = now env)
  ∧ offers db' = offers db
  ∧ messages db' = messages db
  ∧ st = 201%nat.
Proof.
  unfold MarketplacePlugin.request.
  rewrite decide_True by (unfold MarketplacePlugin.getRoutes; set_solver).
  cbn [MarketplacePlugin.handler]. case_match; [done|].
  unfold MarketplaceController.createListing. open_handler.
  destruct (Zod.listingSchema (Context.json c)) as [v|]; cbn; [|done].
  rewrite createListing_result.
  destruct (listings db !! uuid env) eqn:Hfresh; cbn; [done|].
  intros [= <- <- <-]. split_and!; try done. by eexists.
Qed.

(** X13.  An offer is only ever created on a stored AVAILABLE listing, by someone
    other than its seller: the offer is stored under the fresh id, PENDING, for
    that listing and that caller, with a non-negative amount, a message that is
    never the empty string, and nothing else in the database changes. *)
Theorem createOffer_success_inversion (c : Context.t) (env : Env) (db db' : Database)
    (p : Payload) (st : nat) :
  MarketplaceController.createOffer c env db = (successResponse p st, db') →
  ∃ l o,
    listings db !! Context.param c = Some l
    ∧ MarketplaceListing.status l = ListingStatus.AVAILABLE
    ∧ MarketplaceListing.sellerId l ≠ UserContext.id (Context.user c)
    ∧ offers db !! uuid env = None
    ∧ p = POffer o ∧ st = 201%nat
    ∧ db' = mkDatabase (listings db) (<[uuid env := o]> (offers db)) (messages db)
    ∧ ListingOffer.id o = uuid env
    ∧ ListingOffer.listingId o = Context.param c
    ∧ ListingOffer.buyerId o = UserContext.id (Context.user c)
    ∧ ListingOffer.status o = OfferStatus.PENDING
    ∧ 0 ≤ ListingOffer.amount o
    ∧ ListingOffer.message o ≠ Some "".
Proof.
  unfold MarketplaceController.createOffer. open_handler.
  destruct (listings db !! Context.param c) as [l|] eqn:Hl; cbn; [|done].
  case_decide as Hst; cbn; [done|]. case_decide as Hs; cbn; [done|].
  destruct (Zod.offerSchema (Context.json c)) as [v|] eqn:Hv; cbn; [|done].
  rewrite createOffer_result, Hl.
  destruct (offers db !! uuid env) eqn:Hfresh; cbn; [done|].
  intros [= <- <- <-]. exists l. eexists. split_and!; try done; cbn.
  - by eapply offerSchema_inv.
  - destruct (CreateOfferInput.message v) as [m|]; [|done].
    case_decide; [done|]. congruence.
Qed.

(** X14.  Posting a message is open to everyone and bounded by nothing: whatever
    the configuration, the caller's role, the listing's status and the number
    of messages already there, a body with a non-empty [content] on a stored
    listing is stored under the fresh id with the caller as sender. *)
Theorem createMessage_unrestricted (config : MarketplaceConfig.t) (c : Context.t)
    (env : Env) (db : Database) (l : MarketplaceListing.t) (v : CreateMessageInput.t) :
  listings db !! Context.param c = Some l →
  Zod.messageSchema (Context.json c) = Some v →
  messages db !! uuid env = None →
  MarketplacePlugin.request config MarketplacePlugin.POST_listings_messages c env db =
    (successResponse
       (PMessage (newMessage v (Context.param c) (UserContext.id (Context.user c)) env))
       201,
     mkDatabase (listings db) (offers db)
       (<[uuid env := newMessage v (Context.param c) (UserContext.id (Context.user c)) env]>
          (messages db))).
Proof.
  intros Hl Hv Hfresh. unfold MarketplacePlugin.request.
  rewrite decide_True by (unfold MarketplacePlugin.getRoutes; set_solver).
  cbn [MarketplacePlugin.handler].
  unfold MarketplaceController.createMessage. open_handler.
  rewrite Hl. cbn. rewrite Hv. cbn.
  by rewrite createMessage_result, Hl, Hfresh.
Qed.

(** X15.  [DELETE /listings/:id] succeeds exactly when the caller's role may
    delete listings, the listing is stored, the caller is its seller and no
    offer or message refers to it; the listing is then removed and nothing else
    changes. *)
Theorem deleteListing_succeeds_iff (config : MarketplaceConfig.t) (c : Context.t)
    (env : Env) (db : Database) :
  let result :=
    MarketplacePlugin.request config MarketplacePlugin.DELETE_listings_id c env db in
  (isSuccess result.1 = true
   ↔ MarketplacePlugin.includes
       (MarketplaceConfig.canDeleteListings (MarketplaceConfig.roles config))
       (UserContext.role (Context.user c)) = true
     ∧ (∃ l, listings db !! Context.param c = Some l
             ∧ MarketplaceListing.sellerId l = UserContext.id (Context.user c))
     ∧ Prisma.offersOf db (Context.param c) = []
     ∧ Prisma.messagesOf db (Context.param c) = [])
  ∧ (isSuccess result.1 = true →
     result.2 = mkDatabase (delete (Context.param c) (listings db)) (offers db) (messages db)).
Proof.
  cbv zeta. unfold MarketplacePlugin.request.
  rewrite decide_True by (unfold MarketplacePlugin.getRoutes; set_solver).
  cbn [MarketplacePlugin.handler].
  destruct (MarketplacePlugin.includes _ _); cbn [negb];
    [|split; [split; [done | by intros (? & _)] | done]].
  unfold MarketplaceController.deleteListing. open_handler.
  destruct (listings db !! Context.param c) as [l|] eqn:Hl; cbn;
    [|split; [split; [done | by intros (_ & (? & ? & _) & _)] | done]].
  case_decide as Hs; cbn.
  - split; [split; [done|] | done]. intros (_ & (l' & [= <-] & ?) & _). done.
  - rewrite deleteListing_result, Hl.
    destruct (Prisma.offersOf db (Context.param c)); cbn;
      [|split; [split; [done | by intros (_ & _ & ? & _)] | done]].
    destruct (Prisma.messagesOf db (Context.param c)); cbn;
      [|split; [split; [done | by intros (_ & _ & _ & ?)] | done]].
    split; [split; [|done] | done]. intros _. split_and!; try done. by exists l.
Qed.

(** X16.  The two transition handlers raise on a listing that is not stored and
    change nothing: the payment notification throws, and the approval request
    ends with the error escaping its handler. *)
Theorem transitions_on_missing_listing (config : MarketplaceConfig.t) (c : Context.t)
    (env : Env) (db : Database) :
  listings db !! Context.param c = None →
  MarketplaceConfig.autoApproval (MarketplaceConfig.features config) = false →
  MarketplacePlugin.includes
    (MarketplaceConfig.canApproveListings (MarketplaceConfig.roles config))
    (UserContext.role (Context.user c)) = true →
  MarketplacePlugin.handleEvent "payment.completed" (Context.param c) env db
    = (Threw (Error "Failed to update listing"), db)
  ∧ MarketplacePlugin.request config MarketplacePlugin.POST_listings_approve c env db
    = (uncaught (Error "Failed to update listing"), db).
Proof.
  intros Hl Hauto Hrole. split.
  - change (MarketplacePlugin.handleEvent "payment.completed" (Context.param c) env)
      with (MarketplaceController.handlePaymentCompleted (Context.param c) env).
    unfold MarketplaceController.handlePaymentCompleted.
    by rewrite bind_run, updateListing_result, Hl.
  - unfold MarketplacePlugin.request.
    rewrite decide_True by (unfold MarketplacePlugin.getRoutes; rewrite Hauto; set_solver).
    cbn [MarketplacePlugin.handler]. rewrite Hrole. cbn [negb].
    unfold MarketplaceController.handleListingApproved.
    by rewrite bind_run, updateListing_result, Hl.
Qed.

Lemma required_optional {A} (p : jval → option A) (v : option jval) (a : A) :
  Zod.required p v = Some a → Zod.optional p v = Some (Some a).
Proof. destruct v as [x|]; cbn; [|done]. by intros ->. Qed.

(** X17.  Whatever [listingSchema] and [offerSchema] accept, their [partial()]
    versions accept too, with the same value for every key. *)
Theorem partial_schemas_accept_full (body : gmap string jval) :
  (∀ d, Zod.listingSchema body = Some d →
        Zod.listingSchema_partial body =
          Some (UpdateListingInput.mk
                  (Some (CreateListingInput.title d))
                  (Some (CreateListingInput.description d))
                  (Some (CreateListingInput.price d))
                  (Some (CreateListingInput.condition d))
                  (Some (CreateListingInput.images d))
                  (CreateListingInput.tags d) None))
  ∧ (∀ d, Zod.offerSchema body = Some d →
          Zod.offerSchema_partial body =
            Some (UpdateOfferInput.mk (Some (CreateOfferInput.amount d))
                    (CreateOfferInput.message d) None)).
Proof.
  split; intros d H.
  - unfold Zod.listingSchema in H. unfold Zod.listingSchema_partial.
    apply bind_Some in H as (t & Ht & H). apply bind_Some in H as (ds & Hd & H).
    apply bind_Some in H as (p & Hp & H). apply bind_Some in H as (cd & Hc & H).
    apply bind_Some in H as (i & Hi & H). apply bind_Some in H as (g & Hg & H).
    injection H as <-. cbn.
    by rewrite (required_optional _ _ _ Ht), (required_optional _ _ _ Hd),
      (required_optional _ _ _ Hp), (required_optional _ _ _ Hc),
      (required_optional _ _ _ Hi), Hg.
  - unfold Zod.offerSchema in H. unfold Zod.offerSchema_partial.
    apply bind_Some in H as (a & Ha & H). apply bind_Some in H as (m & Hm & H).
    injection H as <-. cbn.
    by rewrite (required_optional _ _ _ Ha), Hm.
Qed.

(** ** EventBus *)
Section EventBusProperties.
Context {Handler Data State Failure : Type} `{!EqDecision Handler}.
Context (call : Handler → Data → State → Failure + State).
Implicit Types (bus : gmap string (list Handler)) (h : Handler) (e : string).

Lemma listenersOf_subscribe bus e e' h :
  EventBus.listenersOf (EventBus.subscribe e h bus) e' =
  if decide (e = e') then (EventBus.listenersOf bus e ++ [h])%list
  else EventBus.listenersOf bus e'.
Proof.
  unfold EventBus.listenersOf, EventBus.subscribe.
  destruct (bus !! e) as [l|] eqn:He; rewrite lookup_alter; case_decide; subst;
    rewrite ?lookup_insert_eq, ?lookup_insert_ne, ?He by done; done.
Qed.

Lemma listenersOf_unsubscribe bus e e' h :
  EventBus.listenersOf (EventBus.unsubscribe e h bus) e' =
  if decide (e = e') then EventBus.spliceFirst h (EventBus.listenersOf bus e)
  else EventBus.listenersOf bus e'.
Proof.
  unfold EventBus.listenersOf, EventBus.unsubscribe.
  rewrite lookup_alter. case_decide; [subst|done]. by destruct (bus !! e').
Qed.

Lemma listenerCount_listenersOf bus e :
  EventBus.listenerCount e bus = length (EventBus.listenersOf bus e).
Proof. unfold EventBus.listenerCount, EventBus.listenersOf. by destruct (bus !! e). Qed.

Lemma emit_listenersOf bus e (d : Data) (s : State) :
  EventBus.emit call e d bus s = EventBus.forEach call (EventBus.listenersOf bus e) d s.
Proof. unfold EventBus.emit, EventBus.listenersOf. by destruct (bus !! e). Qed.

Lemma forEach_app (l1 l2 : list Handler) (d : Data) (s : State) :
  EventBus.forEach call (l1 ++ l2) d s =
  match EventBus.forEach call l1 d s with
  | inl err => inl err
  | inr s' => EventBus.forEach call l2 d s'
  end.
Proof.
  revert s. induction l1 as [|x l1 IH]; intros s; cbn; [done|].
  by destruct (call x d s).
Qed.

Lemma spliceFirst_split (h : Handler) (l : list Handler) :
  h ∈ l → ∃ pre post, l = (pre ++ (h :: post))%list ∧ (h ∉ pre)
                      ∧ EventBus.spliceFirst h l = (pre ++ post)%list.
Proof.
  induction l as [|x l IH]; [by intros ?%not_elem_of_nil|].
  intros Hin. cbn. destruct (decide (x = h)) as [->|Hx].
  - exists [], l. split_and!; [done | apply not_elem_of_nil | done].
  - apply elem_of_cons in Hin as [?|Hin]; [congruence|].
    destruct (IH Hin) as (pre & post & -> & Hpre & ->).
    exists (x :: pre), post. split_and!; [done | | done].
    apply not_elem_of_cons. split; [congruence | done].
Qed.

Lemma spliceFirst_absent (h : Handler) (l : list Handler) :
  h ∉ l → EventBus.spliceFirst h l = l.
Proof.
  induction l as [|x l IH]; [done|]. intros [Hx Hl]%not_elem_of_cons. cbn.
  rewrite decide_False by congruence. by rewrite IH.
Qed.

(** X18.  [subscribe] adds one listener to its event and none to any other:
    [listenerCount] grows by one for that event and is unchanged elsewhere,
    whether or not the event had listeners before. *)
Theorem subscribe_listenerCount bus e e' h :
  EventBus.listenerCount e' (EventBus.subscribe e h bus) =
  (EventBus.listenerCount e' bus + (if decide (e = e') then 1 else 0))%nat.
Proof.
  rewrite !listenerCount_listenersOf, listenersOf_subscribe.
  case_decide; [subst; rewrite length_app; cbn; lia | lia].
Qed.

(** X19.  [unsubscribe] removes the earliest registration of the handler on that
    event and nothing else: the listeners before it and after it keep their
    order, other events are untouched, and an unknown handler or event changes
    nothing. *)
Theorem unsubscribe_removes_first bus e e' h :
  let old := EventBus.listenersOf bus e' in
  let new := EventBus.listenersOf (EventBus.unsubscribe e h bus) e' in
  if decide (e = e' ∧ h ∈ old)
  then ∃ pre post, old = (pre ++ (h :: post))%list ∧ (h ∉ pre) ∧ new = (pre ++ post)%list
  else new = old.
Proof.
  cbv zeta. rewrite listenersOf_unsubscribe.
  case_decide as Hc.
  - destruct Hc as [-> Hin]. rewrite decide_True by done. by apply spliceFirst_split.
  - case_decide; [subst|done]. apply spliceFirst_absent. intros Hin. by apply Hc.
Qed.

(** X20.  A handler subscribed to an event is called last: [emit] on that event
    first delivers to the earlier listeners in order and then, if none of them
    threw, to the new one; [emit] on any other event is unaffected. *)
Theorem emit_after_subscribe bus e e' h (d : Data) (s : State) :
  EventBus.emit call e' d (EventBus.subscribe e h bus) s =
  if decide (e = e')
  then match EventBus.emit call e d bus s with
       | inl err => inl err
       | inr s' => call h d s'
       end
  else EventBus.emit call e' d bus s.
Proof.
  rewrite !emit_listenersOf, listenersOf_subscribe.
  case_decide; [subst|done]. rewrite forEach_app.
  destruct (EventBus.forEach call (EventBus.listenersOf bus e') d s) as [err|s'];
    cbn; [done|].
  by destruct (call h d s').
Qed.

(** X21.  Subscribing a handler and unsubscribing it again gives back the
    listeners of every event when the handler was not registered on that event
    before; when it was, the earlier registration is the one removed and the
    handler moves to the end. *)
Theorem subscribe_unsubscribe bus e e' h :
  EventBus.listenersOf (EventBus.unsubscribe e h (EventBus.subscribe e h bus)) e' =
  if decide (e = e' ∧ h ∈ EventBus.listenersOf bus e)
  then (EventBus.spliceFirst h (EventBus.listenersOf bus e) ++ [h])%list
  else EventBus.listenersOf bus e'.
Proof.
  rewrite listenersOf_unsubscribe, !listenersOf_subscribe.
  rewrite (decide_True (P := e = e)) by done.
  assert (Hsp : ∀ l : list Handler,
            EventBus.spliceFirst h (l ++ [h]) =
            if decide (h ∈ l) then (EventBus.spliceFirst h l ++ [h])%list else l).
  { induction l as [|x l IH]; cbn.
    - rewrite decide_True by done. by rewrite decide_False by apply not_elem_of_nil.
    - destruct (decide (x = h)) as [->|Hx].
      + by rewrite decide_True by (apply elem_of_cons; by left).
      + rewrite IH. destruct (decide (h ∈ l)) as [Hin|Hin].
        * by rewrite decide_True by (apply elem_of_cons; by right).
        * rewrite decide_False; [done|].
          intros [?|?]%elem_of_cons; [congruence | done]. }
  destruct (decide (e = e')) as [->|Hne].
  - rewrite Hsp. destruct (decide (h ∈ EventBus.listenersOf bus e')) as [Hin|Hin].
    + by rewrite decide_True by done.
    + by rewrite decide_False by (by intros [_ ?]).
  - by rewrite decide_False by (by intros [? _]).
Qed.

(** X22.  [clear(event)] with a named event removes that event's listeners only;
    with no argument, or with the empty string as the event name, it removes
    the listeners of every event.  Afterwards the cleared events count no
    listener and [emit] on them calls nothing. *)
Theorem clear_effect bus (event : option string) e (d : Data) (s : State) :
  let cleared := EventBus.clear event bus in
  match event with
  | Some name =>
      if decide (name = "" ∨ name = e)
      then EventBus.listenerCount e cleared = 0%nat
           ∧ EventBus.emit call e d cleared s = inr s
      else EventBus.listenerCount e cleared = EventBus.listenerCount e bus
           ∧ EventBus.emit call e d cleared s = EventBus.emit call e d bus s
  | None =>
      EventBus.listenerCount e cleared = 0%nat
      ∧ EventBus.emit call e d cleared s = inr s
  end.
Proof.
  cbv zeta. unfold EventBus.clear, EventBus.listenerCount, EventBus.emit.
  destruct event as [name|]; [|by rewrite lookup_empty].
  destruct (decide (name = "")) as [->|Hne].
  - rewrite decide_True by auto. by rewrite lookup_empty.
  - case_decide as Hc.
    + destruct Hc as [ ? | -> ]; [done|]. by rewrite lookup_delete_eq.
    + rewrite lookup_delete_ne; [done|]. intros ->. apply Hc. by right.
Qed.

End EventBusProperties.

(** ** Type guards *)

(** X23.  The type guards follow their own enumerations, which differ from the
    ones the controller writes: of the controller's listing statuses
    [isValidListingStatus] rejects PENDING_PAYMENT and CANCELLED and accepts the
    others, it accepts ["EXPIRED"], which is no listing status of the
    controller; of the offer statuses [isValidOfferStatus] rejects CANCELLED and
    accepts ["COUNTERED"]. *)
Theorem type_guards_versus_controller_statuses :
  (∀ s, TypeGuards.isValidListingStatus (Some (JStr (ListingStatus_value s))) = true
        ↔ s ≠ ListingStatus.PENDING_PAYMENT ∧ s ≠ ListingStatus.CANCELLED)
  ∧ TypeGuards.isValidListingStatus (Some (JStr "EXPIRED")) = true
  ∧ (∀ s, ListingStatus_value s ≠ "EXPIRED")
  ∧ (∀ s, TypeGuards.isValidOfferStatus (Some (JStr (OfferStatus_value s))) = true
          ↔ s ≠ OfferStatus.CANCELLED)
  ∧ TypeGuards.isValidOfferStatus (Some (JStr "COUNTERED")) = true
  ∧ (∀ s, OfferStatus_value s ≠ "COUNTERED").
Proof.
  split_and!; try reflexivity.
  - intros []; vm_compute; split; try done; intros [? ?]; done.
  - by intros [].
  - intros []; vm_compute; split; done.
  - by intros [].
Qed.

(** ** Metrics *)

Lemma count_rows {A} (m : gmap string A) : length (map_to_list m).*2 = size m.
Proof. by rewrite length_fmap, length_map_to_list. Qed.

Lemma count_filtered_rows {A} (P : A → Prop) `{!∀ x, Decision (P x)} (m : gmap string A) :
  (length (filter P (map_to_list m).*2) ≤ size m)%nat.
Proof. rewrite <- count_rows. apply length_filter. Qed.

Lemma count_all_rows {A} (P : A → Prop) `{!∀ x, Decision (P x)} (m : gmap string A) :
  (∀ x, P x) → length (filter P (map_to_list m).*2) = size m.
Proof.
  intros HP. rewrite <- count_rows. f_equal.
  induction ((map_to_list m).*2) as [|x l IH]; [done|].
  by rewrite filter_cons_True, IH.
Qed.

Lemma no_accepted_rows (db : Database) :
  all_offers_pending db →
  filter (λ o, PrismaCount.offerConditions
                 (Some (CountOffersWhere.mk None None (Some OfferStatus.ACCEPTED) None None))
                 o = true)
    (map_to_list (offers db)).*2 = [].
Proof.
  intros Hp.
  destruct (filter _ _) as [|o l] eqn:Hf; [done|]. exfalso.
  assert (Hin : o ∈ o :: l) by (apply elem_of_cons; by left).
  rewrite <- Hf in Hin. apply list_elem_of_filter in Hin as [Hacc Hin].
  apply list_elem_of_fmap in Hin as ([k o'] & -> & Hin).
  apply elem_of_map_to_list in Hin. cbn in Hacc.
  rewrite (map_Forall_lookup_1 _ _ _ _ Hp Hin) in Hacc. done.
Qed.

Lemma updateMetrics_result (db : Database) :
  Metrics.updateMetrics db =
  (Returned
     (Metrics.mk
        (length (filter (λ l, PrismaCount.listingConditions None l = true)
                   (map_to_list (listings db)).*2))
        (length (filter (λ l, PrismaCount.listingConditions
                                (Some (CountListingsWhere.mk None None
                                         (Some ListingStatus.AVAILABLE) None None))
                                l = true)
                   (map_to_list (listings db)).*2))
        (length (filter (λ o, PrismaCount.offerConditions None o = true)
                   (map_to_list (offers db)).*2))
        (length (filter (λ o, PrismaCount.offerConditions
                                (Some (CountOffersWhere.mk None None
                                         (Some OfferStatus.ACCEPTED) None None))
                                o = true)
                   (map_to_list (offers db)).*2))),
   db).
Proof. reflexivity. Qed.

(** X24.  [updateMetrics] always completes and reads the database without
    changing it: the totals are the numbers of stored listings and offers, and
    the numbers of active listings and accepted offers never exceed them. *)
Theorem updateMetrics_counts (db : Database) :
  ∃ m, Metrics.updateMetrics db = (Returned m, db)
       ∧ Metrics.totalListings m = size (listings db)
       ∧ (Metrics.activeListings m ≤ Metrics.totalListings m)%nat
       ∧ Metrics.totalOffers m = size (offers db)
       ∧ (Metrics.acceptedOffers m ≤ Metrics.totalOffers m)%nat.
Proof.
  eexists. split; [apply updateMetrics_result|]. cbn [Metrics.totalListings
    Metrics.activeListings Metrics.totalOffers Metrics.acceptedOffers].
  rewrite !(count_all_rows (λ _, _ None _ = true)) by done.
  split_and!; try done; apply count_filtered_rows.
Qed.

(** X25.  When every stored offer is PENDING, every offer is PENDING after any
    sequence of requests and events, and the accepted-offers metric stays 0: the
    plugin never produces an ACCEPTED, REJECTED or CANCELLED offer. *)
Theorem offers_stay_pending (config : MarketplaceConfig.t)
    (trace : list (MarketplacePlugin.Input * Env)) (db : Database) :
  all_offers_pending db →
  Forall (λ d, all_offers_pending d
               ∧ Metrics.acceptedOffers <$> (match (Metrics.updateMetrics d).1 with
                                             | Returned m => Some m
                                             | Threw _ => None
                                             end) = Some 0%nat)
    (MarketplacePlugin.run config trace db).
Proof.
  intros Hp. eapply Forall_impl; [by apply run_all_offers_pending|].
  intros d Hd. split; [done|].
  rewrite updateMetrics_result. cbn [fst]. cbn [fmap option_fmap option_map].
  cbn [Metrics.acceptedOffers]. by rewrite (no_accepted_rows d Hd).
Qed.

(** ** The scenario as a witness *)

Lemma scenario_wf : wf_db Scenario.db.
Proof. split_and!; by apply map_Forall_singleton. Qed.

Lemma wf_db_invariant_witness :
  Forall wf_db
    (MarketplacePlugin.run MarketplaceConfig.defaults Scenario.trace Scenario.db).
Proof. apply wf_db_invariant. exact scenario_wf. Defined.

Lemma refs_ok_invariant_witness :
  Forall refs_ok
    (MarketplacePlugin.run MarketplaceConfig.defaults Scenario.trace Scenario.db).
Proof.
  apply refs_ok_invariant.
  split; apply map_Forall_singleton; eexists; reflexivity.
Defined.

Lemma offers_stay_pending_witness :
  Forall (λ d, all_offers_pending d
               ∧ Metrics.acceptedOffers <$> (match (Metrics.updateMetrics d).1 with
                                             | Returned m => Some m
                                             | Threw _ => None
                                             end) = Some 0%nat)
    (MarketplacePlugin.run MarketplaceConfig.defaults Scenario.trace Scenario.db).
Proof. apply offers_stay_pending. apply map_Forall_singleton. reflexivity. Defined.

Lemma listings_never_draft_or_cancelled_witness :
  Forall no_draft_or_cancelled
    (MarketplacePlugin.run MarketplaceConfig.defaults Scenario.trace Scenario.db).
Proof.
  apply listings_never_draft_or_cancelled.
  apply map_Forall_singleton. split; discriminate.
Defined.

Lemma messages_are_immutable_witness :
  Forall (λ d, messages d !! "M1" = Some Scenario.message1)
    (MarketplacePlugin.run MarketplaceConfig.defaults Scenario.trace Scenario.db).
Proof. apply messages_are_immutable. reflexivity. Defined.

Lemma valid_fields_invariant_witness :
  Forall valid_fields
    (MarketplacePlugin.run MarketplaceConfig.defaults Scenario.trace Scenario.db).
Proof.
  apply valid_fields_invariant.
  split_and!; apply map_Forall_singleton; cbn; lia.
Defined.

Lemma failed_request_changes_nothing_witness :
  (MarketplacePlugin.request MarketplaceConfig.defaults MarketplacePlugin.PUT_offers_id
     (Scenario.context Sample.seller "O1" Sample.acceptBody) Sample.env1 Scenario.db).2
  = Scenario.db.
Proof.
  apply failed_request_changes_nothing; [exact scenario_wf | reflexivity].
Defined.

Lemma updateListing_without_keys_witness :
  MarketplaceController.updateListing
    (Scenario.context Sample.seller "L1" {[ "status" := JStr "SOLD" ]}) Sample.env1
    Scenario.db =
  (successResponse
     (PListing (Some (ListingResult.mk (Sample.bike ListingStatus.AVAILABLE)
                        (Prisma.offersOf Scenario.db "L1")
                        (Prisma.messagesOf Scenario.db "L1")))) 200,
   Scenario.db).
Proof.
  apply (updateListing_without_keys
           (Scenario.context Sample.seller "L1" {[ "status" := JStr "SOLD" ]}) Sample.env1
           Scenario.db (Sample.bike ListingStatus.AVAILABLE)); [reflexivity..|].
  intros k Hk. unfold listingKeys in Hk.
  repeat (apply elem_of_cons in Hk as [->|Hk]; [reflexivity|]).
  by apply not_elem_of_nil in Hk.
Defined.

Lemma createListing_seller_is_caller_witness :
  let db' :=
    (MarketplacePlugin.request MarketplaceConfig.defaults MarketplacePlugin.POST_listings
       (Scenario.context Sample.buyer1 ""
          (<["sellerId" := JStr "S"]> Sample.listingBody)) (mkEnv "L2" 10) Scenario.db).2 in
  listings Scenario.db !! "L2" = None
  ∧ (∃ l, listings db' = <["L2" := l]> (listings Scenario.db)
          ∧ MarketplaceListing.id l = "L2"
          ∧ MarketplaceListing.sellerId l = "B1"
          ∧ MarketplaceListing.createdAt l = 10
          ∧ MarketplaceListing.updatedAt l = 10)
  ∧ offers db' = offers Scenario.db
  ∧ messages db' = messages Scenario.db
  ∧ 201%nat = 201%nat.
Proof.
  cbv zeta.
  eapply (createListing_seller_is_caller MarketplaceConfig.defaults
            (Scenario.context Sample.buyer1 ""
               (<["sellerId" := JStr "S"]> Sample.listingBody)) (mkEnv "L2" 10)).
  vm_compute. reflexivity.
Defined.

Lemma createOffer_success_inversion_witness :
  ∃ l o,
    listings Scenario.db !! "L1" = Some l
    ∧ MarketplaceListing.status l = ListingStatus.AVAILABLE
    ∧ MarketplaceListing.sellerId l ≠ "B2"
    ∧ offers Scenario.db !! "O2" = None
    ∧ POffer (newOffer (CreateOfferInput.mk 120 (Some "")) "L1" "B2" Sample.env1) = POffer o
    ∧ 201%nat = 201%nat
    ∧ mkDatabase (listings Scenario.db)
        (<["O2" := newOffer (CreateOfferInput.mk 120 (Some "")) "L1" "B2" Sample.env1]>
           (offers Scenario.db)) (messages Scenario.db)
      = mkDatabase (listings Scenario.db) (<["O2" := o]> (offers Scenario.db))
          (messages Scenario.db)
    ∧ ListingOffer.id o = "O2"
    ∧ ListingOffer.listingId o = "L1"
    ∧ ListingOffer.buyerId o = "B2"
    ∧ ListingOffer.status o = OfferStatus.PENDING
    ∧ 0 ≤ ListingOffer.amount o
    ∧ ListingOffer.message o ≠ Some "".
Proof.
  apply (createOffer_success_inversion
           (Scenario.context Sample.buyer2 "L1"
              {[ "amount" := JNum 120; "message" := JStr "" ]}) Sample.env1 Scenario.db).
  reflexivity.
Defined.

Lemma createMessage_unrestricted_witness :
  MarketplacePlugin.request Scenario.configNoMessaging
    MarketplacePlugin.POST_listings_messages
    (Scenario.context Scenario.guest "L1" Scenario.messageBody) (mkEnv "M2" 20)
    (mkDatabase {[ "L1" := Sample.bike ListingStatus.SOLD ]} ∅ {[ "M1" := Scenario.message1 ]})
  = (successResponse
       (PMessage (newMessage (CreateMessageInput.mk "Hello") "L1" "G" (mkEnv "M2" 20))) 201,
     mkDatabase {[ "L1" := Sample.bike ListingStatus.SOLD ]} ∅
       (<["M2" := newMessage (CreateMessageInput.mk "Hello") "L1" "G" (mkEnv "M2" 20)]>
          {[ "M1" := Scenario.message1 ]})).
Proof.
  exact (createMessage_unrestricted Scenario.configNoMessaging
           (Scenario.context Scenario.guest "L1" Scenario.messageBody) (mkEnv "M2" 20)
           (mkDatabase {[ "L1" := Sample.bike ListingStatus.SOLD ]} ∅
              {[ "M1" := Scenario.message1 ]})
           (Sample.bike ListingStatus.SOLD) (CreateMessageInput.mk "Hello")
           eq_refl eq_refl eq_refl).
Defined.

Lemma transitions_on_missing_listing_witness :
  MarketplacePlugin.handleEvent "payment.completed" "L9" Sample.env1 Scenario.db
    = (Threw (Error "Failed to update listing"), Scenario.db)
  ∧ MarketplacePlugin.request MarketplaceConfig.defaults
      MarketplacePlugin.POST_listings_approve
      (Scenario.context Sample.seller "L9" ∅) Sample.env1 Scenario.db
    = (uncaught (Error "Failed to update listing"), Scenario.db).
Proof.
  apply (transitions_on_missing_listing MarketplaceConfig.defaults
           (Scenario.context Sample.seller "L9" ∅) Sample.env1 Scenario.db);
    reflexivity.
Defined.

(** ** Error codes *)

Ltac code_found :=
  cbn; try done;
  try (intros [= <- <-]; cbn; split; rewrite !elem_of_cons;
       repeat (first [left; reflexivity | right])).

(** X26.  Of the sixteen error codes the plugin's requests produce four:
    LISTING_NOT_FOUND, FORBIDDEN, LISTING_UNAVAILABLE and SELF_OFFER, so a
    [MarketplaceError] in a response always carries status 404, 403 or 400.  In
    particular a body that fails validation is never reported as
    VALIDATION_ERROR. *)
Theorem request_error_codes (config : MarketplaceConfig.t) (r : MarketplacePlugin.Route)
    (c : Context.t) (env : Env) (db : Database) (code : MarketplaceErrorCode)
    (message : string) :
  (MarketplacePlugin.request config r c env db).1
    = errorResponse (MarketplaceError code message) →
  code ∈ [LISTING_NOT_FOUND; FORBIDDEN; LISTING_UNAVAILABLE; SELF_OFFER]
  ∧ statusCode code ∈ [404; 403; 400]%nat.
Proof.
  unfold MarketplacePlugin.request. case_decide; [|done].
  destruct r; cbn [MarketplacePlugin.handler].
  all: try (case_match; [done|]).
  - done.
  - unfold MarketplaceController.createListing. open_handler.
    destruct (Zod.listingSchema (Context.json c)); cbn; [|done].
    rewrite createListing_result. by destruct (listings db !! uuid env).
  - unfold MarketplaceController.getListingById. open_handler.
    destruct (listings db !! Context.param c); code_found.
  - unfold MarketplaceController.updateListing. open_handler.
    destruct (listings db !! Context.param c) as [l|] eqn:Hl; code_found.
    case_decide; code_found.
    destruct (Zod.listingSchema_partial (Context.json c)); cbn; [|done].
    rewrite updateListing_result, Hl. by case_decide.
  - unfold MarketplaceController.deleteListing. open_handler.
    destruct (listings db !! Context.param c) as [l|] eqn:Hl; code_found.
    case_decide; code_found.
    rewrite deleteListing_result, Hl.
    by destruct (Prisma.offersOf db (Context.param c)),
      (Prisma.messagesOf db (Context.param c)).
  - unfold MarketplaceController.createOffer. open_handler.
    destruct (listings db !! Context.param c) as [l|] eqn:Hl; code_found.
    case_decide; code_found. case_decide; code_found.
    destruct (Zod.offerSchema (Context.json c)); cbn; [|done].
    rewrite createOffer_result, Hl. by destruct (offers db !! uuid env).
  - unfold MarketplaceController.updateOffer. open_handler.
    destruct (listings db !! Context.param c) as [l|] eqn:Hl; code_found.
    destruct (truthy _ && _); code_found.
    destruct (_ && _); code_found.
    destruct (Zod.offerSchema_partial (Context.json c)); cbn; [|done].
    rewrite updateOffer_result. case_decide; cbn; [done|].
    destruct (offers db !! Context.param c); cbn; [|done].
    destruct (strict_eq_string _ _); cbn; [|done].
    rewrite updateListing_result. cbn.
    destruct (listings db !! MarketplaceListing.id l); cbn; [|done]. by case_decide.
  - unfold MarketplaceController.createMessage. open_handler.
    destruct (listings db !! Context.param c) as [l|] eqn:Hl; code_found.
    destruct (Zod.messageSchema (Context.json c)); cbn; [|done].
    rewrite createMessage_result, Hl. by destruct (messages db !! uuid env).
  - unfold MarketplaceController.handleListingApproved.
    rewrite bind_run, updateListing_result.
    destruct (listings db !! Context.param c); cbn; [|done]. by case_decide.
Qed.

Lemma request_error_codes_witness :
  SELF_OFFER ∈ [LISTING_NOT_FOUND; FORBIDDEN; LISTING_UNAVAILABLE; SELF_OFFER]
  ∧ statusCode SELF_OFFER ∈ [404; 403; 400]%nat.
Proof.
  apply (request_error_codes MarketplaceConfig.defaults
           MarketplacePlugin.POST_listings_offers
           (Scenario.context Sample.seller "L1" (Sample.offerBody 10)) Sample.env1
           Scenario.db SELF_OFFER "You cannot make an offer on your own listing").
  reflexivity.
Defined.
